(** * RAG Document Assistant: the Streamlit front end [app.py]

    A shallow embedding of the script [app.py] and of its two helper
    functions [save_api_key] and [save_uploaded_file].  The script is
    stateful glue code: it reads widget values, touches two paths of the
    working directory ([data] and [.env]), the process environment and the
    Streamlit session state, and calls three backend modules.  It is
    embedded as a state-and-exception monad over a record [World] holding
    exactly those pieces of state. *)

From Stdlib Require Import Ascii.
From stdpp Require Import base option list strings gmap pretty.

Local Open Scope string_scope.
Local Open Scope list_scope.

(** ** Exceptions and results

    A Python exception is represented by the text that [f"{e}"] renders.
    Every [except Exception as e] of the script catches all of them. *)

Definition exn : Type := string.

Inductive Result (A : Type) : Type :=
  | Ok (a : A)
  | Raise (e : exn).
Arguments Ok {A} a.
Arguments Raise {A} e.

(** ** The file system, as far as the script touches it *)

(** An entry of the upload directory.  [os.path.isfile] follows symbolic
    links, [os.path.islink] does not, so a link records whether its target
    is a regular file. *)
Inductive Entry : Type :=
  | File (content : list Byte.byte)
  | Link (target_is_file : bool)
  | Dir (children : list string).

Definition isfile (e : Entry) : bool :=
  match e with
  | File _ => true
  | Link t => t
  | Dir _ => false
  end.

Definition islink (e : Entry) : bool :=
  match e with
  | Link _ => true
  | _ => false
  end.

(** What can sit at the path [data]: nothing, something that is not a
    directory (a regular file, or a link to one), a symbolic link whose
    target is missing, or a directory (possibly through a link).  The keys
    of a directory are its entries' names, each a single path component. *)
Inductive Node : Type :=
  | Absent
  | Regular
  | Dangling
  | Directory (entries : gmap string Entry).

(** Where the file that [open(path, "wb")] opens lies with respect to the
    upload directory: it is the entry [n] of the directory, or the child
    [n] of its subdirectory [d], or it lies anywhere else (outside the
    directory, or deeper inside it). *)
Inductive Target : Type :=
  | Top (n : string)
  | Inside (d n : string)
  | Elsewhere.

(** What can sit at the path [.env].  A regular file is held as the
    bindings that its lines give, each key with the value that [set_key]
    wrote for it: the text of the value, before python-dotenv expands any
    [${...}] in it when loading. *)
Inductive EnvNode : Type :=
  | EnvAbsent
  | EnvFile (bindings : gmap string string)
  | EnvDirectory.

(** ** User interface elements and the call trace *)

Inductive Element : Type :=
  | Header (s : string)
  | Title (s : string)
  | Subheader (s : string)
  | Markdown (s : string)
  | TextInput (label : string)
  | FileUploader (label : string)
  | Button (label : string)
  | Spinner (label : string)
  | Write (s : string)
  | Success (s : string)
  | Info (s : string)
  | Warning (s : string)
  | Error (s : string).

Inductive Callee : Type :=
  | F_save_api_key
  | F_save_uploaded_file
  | F_load_all_documents
  | F_FaissVectorStore
  | F_build_from_documents
  | F_RAGSearch
  | F_search_and_summarize.

(** The trace is ghost state: it records when a function is entered and
    when it returns normally.  A call that raises leaves no [Leave]. *)
Inductive Event : Type :=
  | Enter (f : Callee)
  | Leave (f : Callee).

#[global] Instance Callee_eq_dec : EqDecision Callee.
Proof. solve_decision. Defined.
#[global] Instance Event_eq_dec : EqDecision Event.
Proof. solve_decision. Defined.
#[global] Instance Element_eq_dec : EqDecision Element.
Proof. solve_decision. Defined.

(** ** The backend modules and the operating system

    [src.data_loader], [src.vectorstore] and [src.search] are imported by
    the script and are not part of it, and neither is python-dotenv.  The
    calls of the operating system may fail for reasons the script cannot
    see (permissions, a busy file, a name that is too long), and the
    kernel resolves the path of the upload.  All of these are taken as
    parameters; the operating system's answers are functions of the path,
    stable over a session. *)
Class External : Type := {
  Chunk : Type;
  Index : Type;
  (** [load_all_documents(data_dir)]: reads the directory. *)
  load_all_documents : Node → Result (list Chunk);
  (** [FaissVectorStore("faiss_store")] *)
  FaissVectorStore : string → Result unit;
  (** [store.build_from_documents(docs)]: the index it persists. *)
  build_from_documents : list Chunk → Result Index;
  (** [RAGSearch()] reads the persisted index and the credential. *)
  RAGSearch : option Index → gmap string string → Result unit;
  (** [rag_search.search_and_summarize(query, top_k=3)] *)
  search_and_summarize :
    option Index → gmap string string → string → nat → Result string;
  (** [os.unlink(path)]: [Some msg] when the call raises. *)
  unlink_error : string → option exn;
  (** [open(path, "wb")] on a path that is not an entry of the upload
      directory that is itself a directory: the exception it raises, or
      where the file it opens lies.  For a path [data/<name>] with a plain
      name the file is the entry of that name, and only the exception is
      taken from here. *)
  open_wb : string → Result Target;
  (** Writing the file [.env] of the working directory, when that path is
      not a directory: [Some msg] when the file or the working directory
      does not allow it. *)
  dotenv_write_error : option exn;
  (** [load_dotenv()]: the bindings it loads, given what sits at [.env] in
      the working directory and the environment.  The library looks for a
      file named [.env] from the directory of the script upwards, which is
      the file that [save_api_key] writes only when the script is run from
      its own directory or no nearer one exists, and it expands [${...}]
      in the values against the environment. *)
  dotenv_values : EnvNode → gmap string string → gmap string string
}.

(** ** Widget values of one run of the script *)

Record UploadedFile : Type := {
  name : string;
  getbuffer : list Byte.byte
}.

Record Inputs : Type := {
  api_key_input : string;
  save_clicked : bool;
  uploaded_file : option UploadedFile;
  process_clicked : bool;
  query : string;
  answer_clicked : bool
}.

(** Python truthiness of a string. *)
Definition truthy (s : string) : bool :=
  match s with
  | EmptyString => false
  | String _ _ => true
  end.

Fixpoint has_char (c : Ascii.ascii) (s : string) : bool :=
  match s with
  | EmptyString => false
  | String a s' => Ascii.eqb a c || has_char c s'
  end.

(** The string holds a NUL character. *)
Definition has_nul (s : string) : bool := has_char Ascii.zero s.

Fixpoint last_char (s : string) : option Ascii.ascii :=
  match s with
  | EmptyString => None
  | String a EmptyString => Some a
  | String _ s' => last_char s'
  end.

(** [os.path.join(a, b)] of [posixpath]: an absolute [b] replaces [a]. *)
Definition os_path_join (a b : string) : string :=
  match b with
  | String "/" _ => b
  | _ =>
      match last_char a with
      | None | Some "/"%char => a +:+ b
      | Some _ => a +:+ "/" +:+ b
      end
  end.

(** A name that is a single path component naming an entry: what
    [os.listdir] returns, and what a browser sends as the name of an
    upload.  Not empty, no [/], no NUL, neither [.] nor [..], and at most
    255 bytes. *)
Definition plain_name (n : string) : bool :=
  truthy n && negb (has_char "/"%char n) && negb (has_nul n)
  && negb (bool_decide (n = ".")) && negb (bool_decide (n = ".."))
  && (String.length n <=? 255)%nat.

Definition is_dir (e : option Entry) : bool :=
  match e with
  | Some (Dir _) => true
  | _ => false
  end.

Definition is_a_directory (path : string) : exn :=
  "[Errno 21] Is a directory: '" +:+ path +:+ "'".

(** The names in a directory after a file [n] is created or overwritten
    in it. *)
Definition add_child (n : string) (c : list string) : list string :=
  if bool_decide (n ∈ c) then c else c ++ [n].

(** The upload directory after [open(path, "wb")] has opened the file at
    [t] and [buf] is written to it.  Opening a directory raises.  Opening
    a symbolic link opens its target, a regular file from then on (created
    if it was missing): the entry stays a link.  Otherwise the entry is
    the regular file with the bytes written. *)
Definition write_at (path : string) (t : Target) (buf : list Byte.byte)
    (m : gmap string Entry) : Result (gmap string Entry) :=
  match t with
  | Top n =>
      match m !! n with
      | Some (Dir _) => Raise (is_a_directory path)
      | Some (Link _) => Ok (<[n := Link true]> m)
      | Some (File _) | None => Ok (<[n := File buf]> m)
      end
  | Inside d n =>
      match m !! d with
      | Some (Dir c) => Ok (<[d := Dir (add_child n c)]> m)
      | _ => Raise ("[Errno 2] No such file or directory: '" +:+ path +:+ "'")
      end
  | Elsewhere => Ok m
  end.

(** ** The monad of the script: state and exceptions *)

Section Monad.
Context {St : Type}.

Definition M (A : Type) : Type := St → Result A * St.

Definition ret {A} (a : A) : M A := fun w => (Ok a, w).

Definition raise {A} (e : exn) : M A := fun w => (Raise e, w).

Definition bind {A B} (m : M A) (k : A → M B) : M B :=
  fun w =>
    match m w with
    | (Ok a, w') => k a w'
    | (Raise e, w') => (Raise e, w')
    end.

(** [try: m except Exception as e: h e] *)
Definition try_except {A} (m : M A) (h : exn → M A) : M A :=
  fun w =>
    match m w with
    | (Ok a, w') => (Ok a, w')
    | (Raise e, w') => h e w'
    end.

Definition lift {A} (r : Result A) : M A := fun w => (r, w).

Definition get {A} (f : St → A) : M A := fun w => (Ok (f w), w).

Definition modify (f : St → St) : M unit := fun w => (Ok tt, f w).

Definition when (b : bool) (m : M unit) : M unit :=
  if b then m else ret tt.

(** [for x in l: body x] *)
Fixpoint for_each {A} (l : list A) (body : A → M unit) : M unit :=
  match l with
  | [] => ret tt
  | x :: l' => bind (body x) (fun _ => for_each l' body)
  end.

End Monad.
Arguments M : clear implicits.

Notation "'do' x <- m ; k" := (bind m (fun x => k))
  (at level 10, x name, m at level 100, k at level 200).
Notation "m ;; k" := (bind m (fun _ => k))
  (at level 100, k at level 200, right associativity).

Section App.
Context `{Ext : External}.

(** ** The world *)

Record World : Type := {
  data : Node;
  dotenv : EnvNode;
  environ : gmap string string;
  (** [st.session_state]: [None] while the key [vector_store_ready] is
      absent. *)
  vector_store_ready : option bool;
  faiss_store : option Index;
  ui : list Element;
  trace : list Event
}.

Definition set_data (d : Node) (w : World) : World :=
  {| data := d; dotenv := dotenv w; environ := environ w;
     vector_store_ready := vector_store_ready w;
     faiss_store := faiss_store w; ui := ui w; trace := trace w |}.

Definition set_dotenv (d : EnvNode) (w : World) : World :=
  {| data := data w; dotenv := d; environ := environ w;
     vector_store_ready := vector_store_ready w;
     faiss_store := faiss_store w; ui := ui w; trace := trace w |}.

Definition set_environ (e : gmap string string) (w : World) : World :=
  {| data := data w; dotenv := dotenv w; environ := e;
     vector_store_ready := vector_store_ready w;
     faiss_store := faiss_store w; ui := ui w; trace := trace w |}.

Definition set_vector_store_ready (b : option bool) (w : World) : World :=
  {| data := data w; dotenv := dotenv w; environ := environ w;
     vector_store_ready := b;
     faiss_store := faiss_store w; ui := ui w; trace := trace w |}.

Definition set_faiss_store (i : option Index) (w : World) : World :=
  {| data := data w; dotenv := dotenv w; environ := environ w;
     vector_store_ready := vector_store_ready w;
     faiss_store := i; ui := ui w; trace := trace w |}.

Definition set_ui (u : list Element) (w : World) : World :=
  {| data := data w; dotenv := dotenv w; environ := environ w;
     vector_store_ready := vector_store_ready w;
     faiss_store := faiss_store w; ui := u; trace := trace w |}.

Definition set_trace (t : list Event) (w : World) : World :=
  {| data := data w; dotenv := dotenv w; environ := environ w;
     vector_store_ready := vector_store_ready w;
     faiss_store := faiss_store w; ui := ui w; trace := t |}.

Definition emit (ev : Event) : M World unit :=
  modify (fun w => set_trace (trace w ++ [ev]) w).

(** A call of [f] with body [m], recorded in the trace. *)
Definition call {A} (f : Callee) (m : M World A) : M World A :=
  emit (Enter f) ;; do x <- m ; emit (Leave f) ;; ret x.

(** ** Streamlit *)

Definition render (el : Element) : M World unit :=
  modify (fun w => set_ui (ui w ++ [el]) w).

Definition st_header s := render (Header s).
Definition st_title s := render (Title s).
Definition st_subheader s := render (Subheader s).
Definition st_markdown s := render (Markdown s).
Definition st_write s := render (Write s).
Definition st_success s := render (Success s).
Definition st_info s := render (Info s).
Definition st_warning s := render (Warning s).
Definition st_error s := render (Error s).
Definition st_spinner s := render (Spinner s).

Definition st_text_input (label value : string) : M World string :=
  render (TextInput label) ;; ret value.

Definition st_button (label : string) (clicked : bool) : M World bool :=
  render (Button label) ;; ret clicked.

Definition st_file_uploader (label : string) (value : option UploadedFile)
  : M World (option UploadedFile) :=
  render (FileUploader label) ;; ret value.

(** ** The operating system and python-dotenv *)

(** [os.path.exists("data")] follows symbolic links. *)
Definition data_exists : M World bool :=
  get (fun w => match data w with
                | Absent | Dangling => false
                | _ => true
                end).

(** [os.makedirs("data")] *)
Definition os_makedirs_data : M World unit :=
  do d <- get data ;
  match d with
  | Absent => modify (set_data (Directory ∅))
  | _ => raise "[Errno 17] File exists: 'data'"
  end.

Definition os_listdir_data : M World (list string) :=
  do d <- get data ;
  match d with
  | Directory m => ret (map_to_list m).*1
  | Regular => raise "[Errno 20] Not a directory: 'data'"
  | Absent | Dangling => raise "[Errno 2] No such file or directory: 'data'"
  end.

Definition lookup_entry (filename : string) : M World (option Entry) :=
  get (fun w => match data w with
                | Directory m => m !! filename
                | _ => None
                end).

Definition os_path_isfile (filename : string) : M World bool :=
  do e <- lookup_entry filename ; ret (from_option isfile false e).

Definition os_path_islink (filename : string) : M World bool :=
  do e <- lookup_entry filename ; ret (from_option islink false e).

Definition os_unlink (save_dir filename : string) : M World unit :=
  match unlink_error (os_path_join save_dir filename) with
  | Some msg => raise msg
  | None =>
      modify (fun w => match data w with
                       | Directory m => set_data (Directory (delete filename m)) w
                       | _ => w
                       end)
  end.

(** [with open(path, "wb") as f: f.write(buf)] for the path of
    [filename] in [save_dir].  A name that is an entry of the directory
    (so a single component) and a subdirectory makes [open] raise.
    Otherwise [open] raises or opens a file as the operating system says;
    for a plain name that file is the entry of that name. *)
Definition write_wb (save_dir filename : string) (buf : list Byte.byte)
  : M World unit :=
  let path := os_path_join save_dir filename in
  do d <- get data ;
  match d with
  | Directory m =>
      if is_dir (m !! filename) then raise (is_a_directory path)
      else
        do t <- lift (open_wb path) ;
        do m' <- lift (write_at path
                         (if plain_name filename then Top filename else t)
                         buf m) ;
        modify (set_data (Directory m'))
  | _ => raise ("[Errno 2] No such file or directory: '" +:+ path +:+ "'")
  end.

Definition env_exists : M World bool :=
  get (fun w => match dotenv w with EnvAbsent => false | _ => true end).

(** Writing [.env] where the file system allows it. *)
Definition write_dotenv (d : EnvNode) : M World unit :=
  match dotenv_write_error with
  | Some msg => raise msg
  | None => modify (set_dotenv d)
  end.

(** [open(".env", "w").close()] on a path that does not exist. *)
Definition touch_env : M World unit :=
  write_dotenv (EnvFile ∅).

(** [set_key(".env", k, v)] of python-dotenv: rewrites the file with the
    line of [k] replaced or added, giving [v] as its value. *)
Definition set_key (k v : string) : M World unit :=
  do d <- get dotenv ;
  match d with
  | EnvFile kv => write_dotenv (EnvFile (<[k := v]> kv))
  | EnvDirectory => raise "[Errno 21] Is a directory: '.env'"
  | EnvAbsent => write_dotenv (EnvFile {[k := v]})
  end.

(** [os.environ[k] = v]: a NUL character in the name or the value raises
    [ValueError]. *)
Definition environ_set (k v : string) : M World unit :=
  if has_nul k || has_nul v then raise "embedded null byte"
  else modify (fun w => set_environ (<[k := v]> (environ w)) w).

(** [load_dotenv()]: the bindings that the library finds enter the
    environment unless the variable is already set there (no override). *)
Definition load_dotenv : M World unit :=
  modify (fun w =>
            set_environ (environ w ∪ dotenv_values (dotenv w) (environ w)) w).

Definition os_getenv (k : string) : M World (option string) :=
  get (fun w => environ w !! k).

(** ** Helper functions of [app.py] *)

Definition save_api_key (key : string) : M World bool :=
  call F_save_api_key (
    do ex <- env_exists ;
    when (negb ex) touch_env ;;
    set_key "GROQ_API_KEY" key ;;
    environ_set "GROQ_API_KEY" key ;;
    ret true).

(** Body of the clearing loop: [try: if isfile or islink: unlink] with its
    [except] branch. *)
Definition clear_entry (save_dir filename : string) : M World unit :=
  let file_path := os_path_join save_dir filename in
  try_except
    (do f <- os_path_isfile filename ;
     do l <- os_path_islink filename ;
     when (f || l) (os_unlink save_dir filename))
    (fun e =>
       st_error ("Failed to delete " +:+ file_path +:+ ". Reason: " +:+ e)).

(** [save_dir] is the default ["data"], as at the only call site. *)
Definition save_uploaded_file (uploaded_file : UploadedFile) : M World string :=
  let save_dir := "data" in
  call F_save_uploaded_file (
    do ex <- data_exists ;
    when (negb ex) os_makedirs_data ;;
    do names <- os_listdir_data ;
    for_each names (clear_entry save_dir) ;;
    write_wb save_dir (name uploaded_file) (getbuffer uploaded_file) ;;
    ret save_dir).

(** ** The button handlers of the script *)

(** Body of [if st.button("Save API Key"):] *)
Definition save_key_handler (api_key_input : string) : M World unit :=
  if truthy api_key_input then
    save_api_key api_key_input ;;
    st_success "API Key saved to .env and environment set!"
  else
    st_error "Please enter a valid key.".

(** Body of the [try:] of the Process Document button. *)
Definition process_document (uploaded_file : UploadedFile) : M World unit :=
  do _data_dir <- save_uploaded_file uploaded_file ;
  do docs <- call F_load_all_documents
               (do d <- get data ; lift (load_all_documents d)) ;
  st_write ("Loaded " +:+ pretty (length docs) +:+ " document chunks.") ;;
  call F_FaissVectorStore (lift (FaissVectorStore "faiss_store")) ;;
  call F_build_from_documents
    (do ix <- lift (build_from_documents docs) ;
     modify (set_faiss_store (Some ix))) ;;
  modify (set_vector_store_ready (Some true)) ;;
  st_success "Vector Store Index Built Successfully!".

(** Body of [if st.button("Process Document"):] *)
Definition process_handler (uploaded_file : UploadedFile) : M World unit :=
  st_spinner "Processing document..." ;;
  try_except
    (process_document uploaded_file)
    (fun e => st_error ("Error processing document: " +:+ e)).

(** Body of the [try:] of the Get Answer button. *)
Definition answer (query : string) : M World unit :=
  call F_RAGSearch
    (do ix <- get faiss_store ; do env <- get environ ;
     lift (RAGSearch ix env)) ;;
  do summary <- call F_search_and_summarize
                  (do ix <- get faiss_store ; do env <- get environ ;
                   lift (search_and_summarize ix env query 3)) ;
  st_subheader "Summary Result:" ;;
  st_markdown summary.

(** Body of [if st.button("Get Answer"):] *)
Definition answer_handler (query : string) : M World unit :=
  if truthy query then
    st_spinner "Searching and generating summary..." ;;
    try_except
      (answer query)
      (fun e => st_error ("An error occurred: " +:+ e))
  else
    st_warning "Please enter a query.".

(** ** The script, top to bottom *)

Definition init_session_state : M World unit :=
  do v <- get vector_store_ready ;
  match v with
  | None => modify (set_vector_store_ready (Some false))
  | Some _ => ret tt
  end.

(** Reading [st.session_state.vector_store_ready]. *)
Definition read_vector_store_ready : M World bool :=
  do v <- get vector_store_ready ;
  match v with
  | Some b => ret b
  | None => raise "st.session_state has no attribute 'vector_store_ready'"
  end.

Definition sidebar (inp : Inputs) : M World unit :=
  st_header "⚙️ Configuration" ;;
  do api_key <- st_text_input "Enter Groq API Key" (api_key_input inp) ;
  do b <- st_button "Save API Key" (save_clicked inp) ;
  when b (save_key_handler api_key) ;;
  st_markdown "---" ;;
  st_header "📂 Data Source" ;;
  do uploaded <- st_file_uploader "Upload a document" (uploaded_file inp) ;
  match uploaded with
  | Some f =>
      do b <- st_button "Process Document" (process_clicked inp) ;
      when b (process_handler f)
  | None => ret tt
  end.

Definition query_input_label : string := "Enter your question:".
Definition get_answer_label : string := "Get Answer".

Definition main_pane (inp : Inputs) : M World unit :=
  st_title "🤖 RAG Summarizer" ;;
  st_markdown "Ask questions based on the documents you uploaded." ;;
  load_dotenv ;;
  do key <- os_getenv "GROQ_API_KEY" ;
  if negb (from_option truthy false key) then
    st_warning
      "⚠️ Please enter and save your Groq API Key in the sidebar to proceed."
  else
    do ready <- read_vector_store_ready ;
    if negb ready then
      st_info
        "👈 Please upload and process a document in the sidebar to start."
    else
      do q <- st_text_input query_input_label (query inp) ;
      do b <- st_button get_answer_label (answer_clicked inp) ;
      when b (answer_handler q).

Definition script (inp : Inputs) : M World unit :=
  init_session_state ;;
  sidebar inp ;;
  main_pane inp.

(** One run of the script redraws the page; the world it leaves behind is
    the starting point of the next run, also when the run was aborted by an
    exception. *)
Definition rerun (w : World) (inp : Inputs) : World :=
  snd (script inp (set_ui [] w)).

(** The worlds after each run of a session, oldest first. *)
Fixpoint session (w : World) (inps : list Inputs) : list World :=
  match inps with
  | [] => []
  | inp :: rest => let w' := rerun w inp in w' :: session w' rest
  end.

(** A browser session starts with an empty session state and no call made. *)
Definition fresh (w : World) : Prop :=
  vector_store_ready w = None ∧ trace w = [].

(** The query input or the Get Answer button is on the page. *)
Definition query_ui_shown (w : World) : Prop :=
  TextInput query_input_label ∈ ui w ∨ Button get_answer_label ∈ ui w.

(** No query widget among the elements [u]. *)
Definition query_free (u : list Element) : Prop :=
  (TextInput query_input_label ∉ u) ∧ (Button get_answer_label ∉ u).

(** No call into the search module among the events [t]. *)
Definition search_free (t : list Event) : Prop :=
  (Enter F_RAGSearch ∉ t) ∧ (Enter F_search_and_summarize ∉ t).

(** Only error banners among the elements [u]. *)
Definition only_errors (u : list Element) : Prop :=
  ∀ el, el ∈ u → ∃ s, el = Error s.

(** What [os.getenv("GROQ_API_KEY")] is truthy means. *)
Definition credential_present (w : World) : Prop :=
  ∃ v, environ w !! "GROQ_API_KEY" = Some v ∧ v ≠ "".

(** The value that the file [.env] gives to a key in its line for it, if
    it is a file and has one. *)
Definition dotenv_get (d : EnvNode) (k : string) : option string :=
  match d with
  | EnvFile kv => kv !! k
  | _ => None
  end.

(** An entry that the clearing loop of [save_uploaded_file] unlinks. *)
Definition removable (filename : string) (e : Entry) : bool :=
  (isfile e || islink e)
  && bool_decide (unlink_error (os_path_join "data" filename) = None).

(** The entries of the upload directory; none when the path is not a
    directory. *)
Definition entries_of (d : Node) : gmap string Entry :=
  match d with
  | Directory m => m
  | _ => ∅
  end.

(** Entries that survive the clearing loop. *)
Definition kept (m : gmap string Entry) : gmap string Entry :=
  filter (λ ne, removable ne.1 ne.2 = false) m.

(** The directory after the final write of [save_uploaded_file], for an
    upload with a plain name. *)
Definition written (f : UploadedFile) (m : gmap string Entry)
  : gmap string Entry :=
  match m !! name f with
  | Some (Dir _) => m
  | Some (Link _) => <[name f := Link true]> m
  | Some (File _) | None => <[name f := File (getbuffer f)]> m
  end.

(** ** Notions used in the proofs *)

(** One round of the loop on the directory map. *)
Definition clear_one (m : gmap string Entry) (n : string)
  : gmap string Entry :=
  match m !! n with
  | Some e => if removable n e then delete n m else m
  | None => m
  end.

(** What the path [data] gives the clearing loop to work on: the entries
    of the directory, none when the directory has just been made, or the
    exception of [os.makedirs] or [os.listdir]. *)
Definition listed (d : Node) : Result (gmap string Entry) :=
  match d with
  | Absent => Ok ∅
  | Directory m => Ok m
  | Regular => Raise "[Errno 20] Not a directory: 'data'"
  | Dangling => Raise "[Errno 17] File exists: 'data'"
  end.

(** The final write of [save_uploaded_file] on the directory [m]. *)
Definition write_result (f : UploadedFile) (m : gmap string Entry)
  : Result (gmap string Entry) :=
  let path := os_path_join "data" (name f) in
  if is_dir (m !! name f) then Raise (is_a_directory path)
  else
    match open_wb path with
    | Raise e => Raise e
    | Ok t =>
        write_at path (if plain_name (name f) then Top (name f) else t)
          (getbuffer f) m
    end.

(** The part of [save_uploaded_file] after the directory is known to exist. *)
Definition clear_and_write (f : UploadedFile) : M World string :=
  do names <- os_listdir_data ;
  for_each names (clear_entry "data") ;;
  write_wb "data" (name f) (getbuffer f) ;;
  ret "data".

(** [m] takes every world to one related to it by [R], whether it returns
    or raises. *)
Definition respects (R : relation World) {A} (m : M World A) : Prop :=
  ∀ w, R w (m w).2.

(** What the sidebar may do in a run with inputs [inp]: it adds to the
    trace and to the page, never a call into the search module nor a query
    widget, and it leaves the flag alone unless the process-document
    action was triggered and the index build returned. *)
Definition sidebar_step (inp : Inputs) (w w' : World) : Prop :=
  ∃ (t : list Event) (u : list Element),
    trace w' = trace w ++ t ∧ ui w' = ui w ++ u
    ∧ search_free t ∧ query_free u
    ∧ (vector_store_ready w' = vector_store_ready w
       ∨ (vector_store_ready w' = Some true
          ∧ Leave F_build_from_documents ∈ t
          ∧ is_Some (uploaded_file inp) ∧ process_clicked inp = true)).

(** The environment after [load_dotenv()]. *)
Definition loaded (w : World) : gmap string string :=
  environ w ∪ dotenv_values (dotenv w) (environ w).

(** What the main pane may do: it never touches the flag, and it shows a
    query widget or calls into the search module only in a world where the
    flag is true and the credential is present. *)
Definition main_step (w w' : World) : Prop :=
  vector_store_ready w' = vector_store_ready w
  ∧ ∃ (t : list Event) (u : list Element),
      trace w' = trace w ++ t ∧ ui w' = ui w ++ u
      ∧ ((search_free t ∧ query_free u)
         ∨ (vector_store_ready w = Some true ∧ credential_present w')).

(** While the flag is not true, no call into the search module has been
    made. *)
Definition search_locked (w : World) : Prop :=
  vector_store_ready w ≠ Some true → search_free (trace w).

(** The message of the clearing loop for an entry whose [os.unlink]
    raised. *)
Definition deletion_error (filename : string) (msg : exn) : Element :=
  Error ("Failed to delete " +:+ os_path_join "data" filename
           +:+ ". Reason: " +:+ msg).

(** The banner, if any, that one round of the clearing loop renders. *)
Definition round_errors (m : gmap string Entry) (n : string)
  : list Element :=
  match m !! n with
  | Some e =>
      if isfile e || islink e then
        match unlink_error (os_path_join "data" n) with
        | Some msg => [deletion_error n msg]
        | None => []
        end
      else []
  | None => []
  end.

(** The banners of the whole loop over the names [l]. *)
Fixpoint loop_errors (m : gmap string Entry) (l : list string)
  : list Element :=
  match l with
  | [] => []
  | n :: l' => round_errors m n ++ loop_errors (clear_one m n) l'
  end.

(** Relations that a run of the script keeps: the credential stays
    present; the upload directory and the index are untouched; [.env] and
    the environment are untouched. *)
Definition keeps_credential (w w' : World) : Prop :=
  credential_present w → credential_present w'.

Definition keeps_files (w w' : World) : Prop :=
  data w' = data w ∧ faiss_store w' = faiss_store w.

Definition keeps_env (w w' : World) : Prop :=
  dotenv w' = dotenv w ∧ environ w' = environ w.

(** The sidebar below the credential part: the separator, the upload
    widget and the Process Document button. *)
Definition sidebar_upload (inp : Inputs) : M World unit :=
  st_markdown "---" ;;
  st_header "📂 Data Source" ;;
  do uploaded <- st_file_uploader "Upload a document" (uploaded_file inp) ;
  match uploaded with
  | Some f =>
      do b <- st_button "Process Document" (process_clicked inp) ;
      when b (process_handler f)
  | None => ret tt
  end.

End App.

(** ** Concrete backends, for examples *)

(** [s.split("/")] *)
Fixpoint components (s : string) : list string :=
  match s with
  | EmptyString => [EmptyString]
  | String a s' =>
      match components s' with
      | c :: cs =>
          if Ascii.eqb a "/"%char then EmptyString :: c :: cs
          else String a c :: cs
      | [] => [String a EmptyString]
      end
  end.

(** The file that a path names when the working directory holds the
    upload directory as [data], no symbolic link is on the way and the
    path does not climb with [..]: empty components and [.] are skipped;
    an absolute path leads elsewhere. *)
Definition lexical_target (path : string) : Target :=
  match path with
  | String "/" _ => Elsewhere
  | _ =>
      match filter (λ c, c ≠ "" ∧ c ≠ ".") (components path) with
      | ["data"; n] => if bool_decide (n = "..") then Elsewhere else Top n
      | ["data"; d; n] =>
          if bool_decide (d = "..") || bool_decide (n = "..") then Elsewhere
          else Inside d n
      | _ => Elsewhere
      end
  end.

(** [open(path, "wb")] in a file system with room and permissions: it
    raises on a NUL character, on a path that names a directory by its
    last component, and on a component of more than 255 bytes; otherwise
    it opens the file that the path names. *)
Definition demo_open_wb (path : string) : Result Target :=
  if has_nul path then Raise "embedded null byte"
  else
    match last (components path) with
    | Some c =>
        if bool_decide (c ∈ [""; "."; ".."]) then
          Raise (is_a_directory path)
        else if forallb (λ c, String.length c <=? 255)%nat (components path)
        then Ok (lexical_target path)
        else Raise ("[Errno 36] File name too long: '" +:+ path +:+ "'")
    | None => Raise (is_a_directory path)
    end.

(** [demo_ext load_ok build_ok locked]: a loader that yields one chunk per
    directory entry and a store that keeps the chunks, each failing when
    its flag is off; [os.unlink] fails on the paths listed in [locked];
    [open] is [demo_open_wb], [.env] can be written, and [load_dotenv]
    finds the [.env] of the working directory and loads its values as
    they are. *)
Definition demo_ext (load_ok build_ok : bool) (locked : list string)
  : External :=
  {| Chunk := string;
     Index := list string;
     load_all_documents := fun d =>
       match d with
       | Directory m =>
           if load_ok then Ok (map_to_list m).*1
           else Raise "unsupported document"
       | _ => Raise "no such directory"
       end;
     FaissVectorStore := fun _ => Ok tt;
     build_from_documents := fun docs =>
       if build_ok then Ok docs else Raise "embedding failed";
     RAGSearch := fun _ _ => Ok tt;
     search_and_summarize := fun _ _ q _ => Ok ("summary of " +:+ q);
     unlink_error := fun p =>
       if bool_decide (p ∈ locked) then Some "[Errno 13] Permission denied"
       else None;
     open_wb := demo_open_wb;
     dotenv_write_error := None;
     dotenv_values := fun d _ =>
       match d with
       | EnvFile kv => kv
       | _ => ∅
       end |}.

Definition demo_world {Ext : External} (d : Node) (e : EnvNode)
    (ready : option bool) : World :=
  {| data := d; dotenv := e; environ := ∅; vector_store_ready := ready;
     faiss_store := None; ui := []; trace := [] |}.

Definition a_txt : UploadedFile :=
  {| name := "a.txt"; getbuffer := [Byte.x61] |}.

Definition b_md : UploadedFile :=
  {| name := "b.md"; getbuffer := [Byte.x62; Byte.x62] |}.


Definition nested_txt : UploadedFile :=
  {| name := "old/y.txt"; getbuffer := [Byte.x61] |}.

(** A backend in which everything works, and one whose index build fails. *)
Definition ok_ext : External := demo_ext true true [].

(** A working directory in which [.env] is a directory. *)
Definition env_is_directory : @World ok_ext :=
  demo_world Absent EnvDirectory (Some false).

(** A new session in an empty working directory. *)
Definition new_session : @World ok_ext :=
  demo_world Absent EnvAbsent None.


(** A session whose upload directory holds one subdirectory. *)
Definition session_with_subdir : @World ok_ext :=
  demo_world (Directory {[ "old" := Dir ["x.txt"] ]}) EnvAbsent (Some false).

Definition click_process (key : string) (f : UploadedFile) : Inputs :=
  {| api_key_input := key; save_clicked := true; uploaded_file := Some f;
     process_clicked := true; query := ""; answer_clicked := false |}.

Definition click_save (key : string) : Inputs :=
  {| api_key_input := key; save_clicked := true; uploaded_file := None;
     process_clicked := false; query := ""; answer_clicked := false |}.


(** A backend in which [os.unlink] fails on one path, and an upload
    directory holding a file at that path beside another one. *)
Definition locked_ext : External := demo_ext true true ["data/locked.txt"].

Definition session_with_locked : @World locked_ext :=
  demo_world
    (Directory {[ "locked.txt" := File [Byte.x61]; "free.txt" := File [] ]})
    EnvAbsent (Some false).

(** An upload directory in which the name of the upload is taken by a
    subdirectory. *)
Definition session_with_clash : @World ok_ext :=
  demo_world (Directory {[ "a.txt" := Dir []; "old.txt" := File [] ]})
    EnvAbsent (Some false).

(** A session with the credential in the environment and the flag true. *)
Definition ready_session : @World ok_ext :=
  {| data := Directory {[ "a.txt" := File [Byte.x61] ]};
     dotenv := EnvAbsent;
     environ := {[ "GROQ_API_KEY" := "gsk_1" ]};
     vector_store_ready := Some true;
     faiss_store := None;
     ui := [];
     trace := [] |}.

Definition no_click : Inputs :=
  {| api_key_input := ""; save_clicked := false; uploaded_file := None;
     process_clicked := false; query := ""; answer_clicked := false |}.

Definition click_answer (q : string) : Inputs :=
  {| api_key_input := ""; save_clicked := false; uploaded_file := None;
     process_clicked := false; query := q; answer_clicked := true |}.

(** * Properties *)

Section Properties.
Context `{Ext : External}.

(** ** Running the monad *)

Lemma bind_ok {A B} (m : M World A) (k : A → M World B) w a w1 :
  m w = (Ok a, w1) → bind m k w = k a w1.
Proof. unfold bind. by intros ->. Qed.

Lemma bind_raise {A B} (m : M World A) (k : A → M World B) w e w1 :
  m w = (Raise e, w1) → bind m k w = (Raise e, w1).
Proof. unfold bind. by intros ->. Qed.

(** ** Pages and traces *)

Lemma only_errors_nil : only_errors [].
Proof. intros el Hel. by apply elem_of_nil in Hel. Qed.

Lemma only_errors_singleton s : only_errors [Error s].
Proof. intros el ->%list_elem_of_singleton. by exists s. Qed.

Lemma only_errors_app u1 u2 :
  only_errors u1 → only_errors u2 → only_errors (u1 ++ u2).
Proof. intros H1 H2 el [?|?]%elem_of_app; auto. Qed.

Lemma only_errors_query_free u : only_errors u → query_free u.
Proof. intros H. split; intros [s Hs]%H; discriminate. Qed.

Lemma query_free_nil : query_free [].
Proof. split; apply not_elem_of_nil. Qed.

Lemma query_free_app u1 u2 :
  query_free u1 → query_free u2 → query_free (u1 ++ u2).
Proof. intros [? ?] [? ?]. split; rewrite elem_of_app; tauto. Qed.

Lemma search_free_nil : search_free [].
Proof. split; apply not_elem_of_nil. Qed.

Lemma search_free_app t1 t2 :
  search_free t1 → search_free t2 → search_free (t1 ++ t2).
Proof. intros [? ?] [? ?]. split; rewrite elem_of_app; tauto. Qed.

(** ** The clearing loop *)

Lemma clear_entry_run w m n :
  data w = Directory m →
  ∃ u, only_errors u ∧
    clear_entry "data" n w
    = (Ok tt, set_ui (ui w ++ u) (set_data (Directory (clear_one m n)) w)).
Proof.
  intros Hd. unfold clear_entry, clear_one, removable.
  unfold try_except, bind, os_path_isfile, os_path_islink, lookup_entry,
    get, ret, when, os_unlink, bind. simpl. rewrite Hd.
  destruct (m !! n) as [e|] eqn:He; simpl.
  - destruct (isfile e || islink e) eqn:Hfl; simpl.
    + destruct (unlink_error (os_path_join "data" n)) as [msg|] eqn:Hu; simpl.
      * eexists [_]. split; [apply only_errors_singleton|].
        unfold st_error, render, modify. simpl.
        destruct w; simpl in *; by subst.
      * exists []. split; [apply only_errors_nil|].
        unfold modify. rewrite Hd. rewrite app_nil_r.
        destruct w; simpl in *; by subst.
    + exists []. split; [apply only_errors_nil|].
      rewrite app_nil_r. destruct w; simpl in *; by subst.
  - exists []. split; [apply only_errors_nil|].
    rewrite app_nil_r. destruct w; simpl in *; by subst.
Qed.

Lemma for_each_clear_run l : ∀ w m,
  data w = Directory m →
  ∃ u, only_errors u ∧
    for_each l (clear_entry "data") w
    = (Ok tt, set_ui (ui w ++ u)
                (set_data (Directory (foldl clear_one m l)) w)).
Proof.
  induction l as [|n l IH]; intros w m Hd; simpl.
  - exists []. split; [apply only_errors_nil|].
    rewrite app_nil_r. unfold ret.
    destruct w; simpl in *; by subst.
  - destruct (clear_entry_run w m n Hd) as (u1 & He1 & H1).
    rewrite (bind_ok _ _ _ _ _ H1).
    edestruct (IH (set_ui (ui w ++ u1)
                     (set_data (Directory (clear_one m n)) w))
                 (clear_one m n)) as (u2 & He2 & H2); [done|].
    rewrite H2. exists (u1 ++ u2)%list.
    split; [by apply only_errors_app|]. simpl. by rewrite app_assoc.
Qed.

Lemma lookup_clear_one m a n :
  clear_one m a !! n
  = m !! n ≫= λ e, if bool_decide (n = a) && removable n e
                    then None else Some e.
Proof.
  unfold clear_one. destruct (decide (n = a)) as [->|Hne].
  - rewrite bool_decide_eq_true_2 by done. simpl.
    destruct (m !! a) as [e|] eqn:He; simpl.
    + destruct (removable a e); [by rewrite lookup_delete_eq | by rewrite He].
    + by rewrite He.
  - rewrite bool_decide_eq_false_2 by done. simpl.
    destruct (m !! a) as [e|] eqn:He.
    + destruct (removable a e).
      * rewrite lookup_delete_ne by done. by destruct (m !! n).
      * by destruct (m !! n).
    + by destruct (m !! n).
Qed.

Lemma lookup_foldl_clear l : ∀ m n,
  foldl clear_one m l !! n
  = m !! n ≫= λ e, if bool_decide (n ∈ l) && removable n e
                    then None else Some e.
Proof.
  induction l as [|a l IH]; intros m n; simpl.
  - by destruct (m !! n).
  - rewrite IH, lookup_clear_one.
    destruct (m !! n) as [e|]; simpl; [|done].
    destruct (decide (n = a)) as [->|Hne].
    + rewrite (bool_decide_eq_true_2 (a = a)) by done.
      rewrite (bool_decide_eq_true_2 (a ∈ a :: l)) by left. simpl.
      destruct (removable a e) eqn:Hr; simpl; [done|].
      rewrite Hr. by rewrite andb_false_r.
    + rewrite (bool_decide_eq_false_2 (n = a)) by done. simpl.
      destruct (removable n e); [|by rewrite !andb_false_r].
      rewrite !andb_true_r.
      destruct (decide (n ∈ l)) as [Hin|Hnin].
      * rewrite !bool_decide_eq_true_2; [done | by right | done].
      * rewrite !bool_decide_eq_false_2; [done | | done].
        by intros [?|?]%elem_of_cons.
Qed.

Lemma clear_listdir m :
  foldl clear_one m (map_to_list m).*1 = kept m.
Proof.
  apply map_eq. intros n. rewrite lookup_foldl_clear. unfold kept.
  destruct (m !! n) as [e|] eqn:He; simpl.
  - rewrite bool_decide_eq_true_2.
    2:{ apply list_elem_of_fmap. exists (n, e). split; [done|].
        by apply elem_of_map_to_list. }
    simpl. destruct (removable n e) eqn:Hr.
    + symmetry. apply map_lookup_filter_None. right. intros e' He'. simpl.
      rewrite He in He'. injection He' as <-. by rewrite Hr.
    + symmetry. apply map_lookup_filter_Some. by split.
  - symmetry. apply map_lookup_filter_None. by left.
Qed.

(** ** [save_uploaded_file] *)

Lemma clear_and_write_run f w m :
  data w = Directory m →
  ∃ u, only_errors u ∧
    clear_and_write f w
    = match write_result f (kept m) with
      | Ok m' =>
          (Ok "data", set_ui (ui w ++ u) (set_data (Directory m') w))
      | Raise e =>
          (Raise e, set_ui (ui w ++ u) (set_data (Directory (kept m)) w))
      end.
Proof.
  intros Hd. unfold clear_and_write.
  destruct (for_each_clear_run (map_to_list m).*1 w m Hd) as (u & He & Hu).
  exists u. split; [done|]. rewrite clear_listdir in Hu.
  unfold bind at 1. unfold os_listdir_data at 1.
  unfold bind at 1. unfold get at 1. rewrite Hd. unfold ret at 1.
  unfold bind at 1. rewrite Hu.
  unfold write_result, bind, write_wb, get, bind, ret, raise, modify, lift.
  simpl.
  destruct (is_dir (kept m !! name f)); [done|].
  destruct (open_wb _) as [t|e]; [|done].
  by destruct (write_at _ _ _ _) as [m'|e].
Qed.

Lemma save_uploaded_file_run f w :
  ∃ u, only_errors u ∧
    save_uploaded_file f w
    = match listed (data w) with
      | Raise e =>
          (Raise e, set_trace (trace w ++ [Enter F_save_uploaded_file]) w)
      | Ok m0 =>
          match write_result f (kept m0) with
          | Ok m' =>
              (Ok "data",
               set_trace (trace w ++ [Enter F_save_uploaded_file;
                                      Leave F_save_uploaded_file])
                 (set_ui (ui w ++ u) (set_data (Directory m') w)))
          | Raise e =>
              (Raise e,
               set_ui (ui w ++ u)
                 (set_data (Directory (kept m0))
                    (set_trace (trace w ++ [Enter F_save_uploaded_file]) w)))
          end
      end.
Proof.
  destruct (listed (data w)) as [m0|e0] eqn:Hl.
  - assert (Hrun : ∃ w2,
      data w2 = Directory m0
      ∧ ui w2 = ui w
      ∧ set_data (data w) w2
        = set_trace (trace w ++ [Enter F_save_uploaded_file]) w
      ∧ save_uploaded_file f w
        = match clear_and_write f w2 with
          | (Ok x, w') =>
              (Ok x,
               set_trace (trace w' ++ [Leave F_save_uploaded_file]) w')
          | (Raise e, w') => (Raise e, w')
          end).
    { destruct w as [d e en v fs u0 t]. simpl in *.
      destruct d; simplify_eq/=.
      - exists (Build_World (Directory ∅) e en v fs u0
                  (t ++ [Enter F_save_uploaded_file])%list). simpl.
        split_and!; reflexivity.
      - exists (Build_World (Directory m0) e en v fs u0
                  (t ++ [Enter F_save_uploaded_file])%list). simpl.
        split_and!; reflexivity. }
    destruct Hrun as (w2 & Hd2 & Hu2 & Hw2 & ->).
    destruct (clear_and_write_run f w2 _ Hd2) as (u & Herr & Hu).
    exists u. split; [done|]. rewrite Hu, Hu2.
    destruct w as [d e en v fs u0 t], w2 as [d2 e2 en2 v2 fs2 u2 t2].
    simpl in *. injection Hw2 as -> -> -> -> -> ->.
    destruct (write_result f (kept m0)); simpl; [|done].
    unfold set_trace, set_ui, set_data. simpl. by rewrite <- app_assoc.
  - exists []. split; [apply only_errors_nil|].
    destruct w as [d e en v fs u0 t]. simpl in *.
    by destruct d; simplify_eq/=.
Qed.

Lemma listed_entries_of d m0 : listed d = Ok m0 → m0 = entries_of d.
Proof. by destruct d; intros [= <-]. Qed.

Lemma save_uploaded_file_ok_inv f w d w1 :
  save_uploaded_file f w = (Ok d, w1) →
  d = "data"
  ∧ ∃ m', write_result f (kept (entries_of (data w))) = Ok m'
          ∧ listed (data w) = Ok (entries_of (data w))
          ∧ data w1 = Directory m'.
Proof.
  intros Hs. destruct (save_uploaded_file_run f w) as (u & _ & Hu).
  rewrite Hs in Hu. destruct (listed (data w)) as [m0|e] eqn:Hl; [|done].
  rewrite <- (listed_entries_of _ _ Hl).
  destruct (write_result f (kept m0)) as [m'|e]; [|done].
  injection Hu as -> ->. eauto.
Qed.

(** The upload directory after a call, whether it returned or raised in
    the final write. *)
Lemma save_uploaded_file_data f w m :
  data w = Directory m →
  data (save_uploaded_file f w).2
  = Directory match write_result f (kept m) with
              | Ok m' => m'
              | Raise _ => kept m
              end.
Proof.
  intros Hd. destruct (save_uploaded_file_run f w) as (u & _ & ->).
  rewrite Hd. simpl. by destruct (write_result f (kept m)).
Qed.

(** ** The final write *)

Lemma write_result_plain f m m' :
  plain_name (name f) = true → write_result f m = Ok m' →
  m' = written f m ∧ is_dir (m !! name f) = false.
Proof.
  intros Hp. unfold write_result, written. rewrite Hp.
  destruct (is_dir (m !! name f)) eqn:Hd; [done|].
  destruct (open_wb _) as [t|e]; [|done]. simpl.
  by destruct (m !! name f) as [[c|t'|c]|]; intros [= <-].
Qed.

Lemma write_result_raise_dir f m c :
  m !! name f = Some (Dir c) →
  write_result f m = Raise (is_a_directory (os_path_join "data" (name f))).
Proof. intros Hc. unfold write_result. by rewrite Hc. Qed.

(** A subdirectory stays one through the write; it gains at most the
    file written into it. *)
Lemma write_at_dir path t buf m m' n c :
  write_at path t buf m = Ok m' → m !! n = Some (Dir c) →
  ∃ c', m' !! n = Some (Dir c') ∧ c ⊆ c'.
Proof.
  intros Hw Hn. destruct t as [n0|d n0|]; simpl in Hw.
  - destruct (decide (n0 = n)) as [->|Hne].
    + by rewrite Hn in Hw.
    + exists c. split; [|done].
      destruct (m !! n0) as [[b|t'|c0]|]; simplify_eq/=;
        by rewrite lookup_insert_ne.
  - destruct (m !! d) as [[b|t'|c0]|] eqn:Hd; simplify_eq/=.
    destruct (decide (d = n)) as [->|Hne].
    + rewrite Hn in Hd. injection Hd as <-. rewrite lookup_insert_eq.
      eexists. split; [done|]. unfold add_child.
      destruct (bool_decide (n0 ∈ c)); [done|].
      intros x Hx. apply elem_of_app. by left.
    + exists c. by rewrite lookup_insert_ne.
  - injection Hw as <-. by exists c.
Qed.

Lemma write_result_dir f m m' n c :
  write_result f m = Ok m' → m !! n = Some (Dir c) →
  ∃ c', m' !! n = Some (Dir c') ∧ c ⊆ c'.
Proof.
  unfold write_result. destruct (is_dir (m !! name f)); [done|].
  destruct (open_wb _) as [t|e]; [|done]. apply write_at_dir.
Qed.

(** ** The Process Document action *)

Ltac not_in_list :=
  let H := fresh "Hin" in
  unfold query_input_label, get_answer_label;
  intros H;
  repeat (apply elem_of_cons in H as [H|H]; [discriminate H|]);
  by apply elem_of_nil in H.

Ltac close_lists :=
  repeat match goal with
         | |- query_free (_ ++ _) => apply query_free_app
         | |- search_free (_ ++ _) => apply search_free_app
         | |- query_free [] => apply query_free_nil
         | |- search_free [] => apply search_free_nil
         | H : only_errors ?u |- query_free ?u =>
             exact (only_errors_query_free u H)
         | |- query_free _ => assumption
         | |- search_free _ => assumption
         | |- query_free _ => split; not_in_list
         | |- search_free _ => split; not_in_list
         end.

Lemma process_document_run f w :
  ∃ r w' (t : list Event) (u : list Element),
    process_document f w = (r, w')
    ∧ trace w' = trace w ++ t ∧ ui w' = ui w ++ u
    ∧ search_free t ∧ query_free u
    ∧ data w' = data (save_uploaded_file f w).2
    ∧ dotenv w' = dotenv w ∧ environ w' = environ w
    ∧ match r with
      | Ok _ =>
          vector_store_ready w' = Some true
          ∧ (∃ d, (save_uploaded_file f w).1 = Ok d)
          ∧ last t = Some (Leave F_build_from_documents)
      | Raise _ =>
          vector_store_ready w' = vector_store_ready w
          ∧ faiss_store w' = faiss_store w
      end.
Proof.
  destruct (save_uploaded_file_run f w) as (u0 & Herr & Hs).
  unfold process_document.
  destruct (listed (data w)) as [m0|e0].
  - destruct (write_result f (kept m0)) as [m'|e].
    + rewrite (bind_ok _ _ _ _ _ Hs), Hs.
      unfold call, emit, bind, get, lift, modify, st_write, st_success,
        render, ret. simpl.
      destruct (load_all_documents _) as [docs|e]; simpl;
        [destruct (FaissVectorStore _) as [[]|e]; simpl;
         [destruct (build_from_documents docs) as [ix|e]; simpl | ] | ];
        eexists _, _, _, _;
        (split; [reflexivity|]);
        (split; [simpl; rewrite <- ?app_assoc; reflexivity|]);
        (split; [simpl; rewrite <- ?app_assoc; reflexivity|]);
        simpl; split_and!; try done; close_lists; by eexists.
    + rewrite (bind_raise _ _ _ _ _ Hs), Hs.
      eexists _, _, [Enter F_save_uploaded_file], u0.
      split_and!; simpl; try done; close_lists.
  - rewrite (bind_raise _ _ _ _ _ Hs), Hs.
    eexists _, _, [Enter F_save_uploaded_file], [].
    rewrite app_nil_r. split_and!; simpl; try done; close_lists.
Qed.

(** ** The directory after an upload *)

Lemma lookup_kept m n e :
  kept m !! n = Some e ↔ m !! n = Some e ∧ removable n e = false.
Proof. unfold kept. by rewrite map_lookup_filter_Some. Qed.

Lemma kept_all_removable m :
  (∀ n e, m !! n = Some e → removable n e = true) → kept m = ∅.
Proof.
  intros Hall. apply map_empty. intros n.
  destruct (kept m !! n) as [e|] eqn:He; [|done].
  apply lookup_kept in He as [Hm Hr]. rewrite (Hall _ _ Hm) in Hr.
  discriminate.
Qed.

Lemma lookup_written_ne f m n :
  n ≠ name f → written f m !! n = m !! n.
Proof.
  intros Hne. unfold written.
  destruct (m !! name f) as [[c|t|c]|]; try done;
    by rewrite lookup_insert_ne.
Qed.

Lemma lookup_written_is_Some f m : is_Some (written f m !! name f).
Proof.
  unfold written. destruct (m !! name f) as [[c|t|c]|] eqn:He;
    rewrite ?lookup_insert_eq, ?He; eauto.
Qed.

Lemma written_empty f : written f ∅ = {[ name f := File (getbuffer f) ]}.
Proof. unfold written. by rewrite lookup_empty, insert_empty. Qed.

(** When [os.unlink] does not fail on the path of the upload, the entry
    written is the regular file with the uploaded bytes. *)
Lemma lookup_written_file f m :
  unlink_error (os_path_join "data" (name f)) = None →
  is_dir (kept m !! name f) = false →
  written f (kept m) !! name f = Some (File (getbuffer f)).
Proof.
  intros Hu Hdir. unfold written.
  destruct (kept m !! name f) as [[c|t|c]|] eqn:He;
    rewrite ?lookup_insert_eq; try done.
  apply lookup_kept in He as [_ Hr]. unfold removable in Hr.
  rewrite Hu in Hr. by destruct t.
Qed.

Lemma lookup_written_kept f m n e :
  n ≠ name f → written f (kept m) !! n = Some e →
  m !! n = Some e ∧ removable n e = false.
Proof.
  intros Hne. rewrite lookup_written_ne by done. apply lookup_kept.
Qed.

Lemma save_uploaded_file_ok_data f w d w1 :
  plain_name (name f) = true →
  save_uploaded_file f w = (Ok d, w1) →
  data w1 = Directory (written f (kept (entries_of (data w))))
  ∧ is_dir (kept (entries_of (data w)) !! name f) = false.
Proof.
  intros Hp (_ & m' & Hw & _ & Hd)%save_uploaded_file_ok_inv.
  destruct (write_result_plain _ _ _ Hp Hw) as [-> Hdir]. by split.
Qed.

Lemma process_document_ok_inv f w w' :
  process_document f w = (Ok tt, w') →
  vector_store_ready w' = Some true
  ∧ (∃ d w1, save_uploaded_file f w = (Ok d, w1) ∧ data w' = data w1)
  ∧ ∃ t, trace w' = trace w ++ t
         ∧ last t = Some (Leave F_build_from_documents).
Proof.
  intros Hp.
  destruct (process_document_run f w)
    as (r & w1 & t & u & Hrun & Ht & _ & _ & _ & Hdata & _ & _ & Hr).
  rewrite Hp in Hrun. injection Hrun as <- <-.
  destruct Hr as (Hv & [d Hd] & Hlast). split_and!; [done| |eauto].
  exists d, (save_uploaded_file f w).2. split; [|done].
  rewrite <- Hd. by destruct (save_uploaded_file f w).
Qed.

Lemma process_document_raise_flag f w e w' :
  process_document f w = (Raise e, w') →
  vector_store_ready w' = vector_store_ready w
  ∧ faiss_store w' = faiss_store w
  ∧ dotenv w' = dotenv w ∧ environ w' = environ w
  ∧ data w' = data (save_uploaded_file f w).2.
Proof.
  intros Hp.
  destruct (process_document_run f w)
    as (r & w1 & t & u & Hrun & _ & _ & _ & _ & Hdata & Hdot & Henv & Hr).
  rewrite Hp in Hrun. injection Hrun as <- <-. by destruct Hr.
Qed.

(** C1, as amended.  After a process-document action that completes
    without an exception the flag [vector_store_ready] is true.  When the
    name of the upload is a single path component, the upload directory
    then holds an entry under that name (the regular file with the
    uploaded bytes when [os.unlink] does not fail on that path); every
    other entry was in the directory before and is one that the clearing
    loop leaves alone: it is neither a regular file nor a symbolic link,
    or its [os.unlink] failed; and when every earlier entry was a file or
    link that could be unlinked, the directory holds exactly one entry,
    the uploaded file. *)
Theorem process_document_success f w w' :
  process_document f w = (Ok tt, w') →
  vector_store_ready w' = Some true
  ∧ (plain_name (name f) = true →
     ∃ m', data w' = Directory m'
       ∧ is_Some (m' !! name f)
       ∧ (unlink_error (os_path_join "data" (name f)) = None →
          m' !! name f = Some (File (getbuffer f)))
       ∧ (∀ n e, n ≠ name f → m' !! n = Some e →
            entries_of (data w) !! n = Some e ∧ removable n e = false)
       ∧ ((∀ n e, entries_of (data w) !! n = Some e →
                  removable n e = true) →
          m' = {[ name f := File (getbuffer f) ]})).
Proof.
  intros (Hv & (d & w1 & Hs & Hd) & _)%process_document_ok_inv.
  split; [done|]. intros Hp.
  destruct (save_uploaded_file_ok_data _ _ _ _ Hp Hs) as [Hd1 Hdir].
  rewrite Hd, Hd1. eexists. split; [done|]. split_and!.
  - apply lookup_written_is_Some.
  - intros Hu. by apply lookup_written_file.
  - intros n e. apply lookup_written_kept.
  - intros Hall. rewrite (kept_all_removable _ Hall). apply written_empty.
Qed.

(** C5, as amended.  For two successive uploads, first of file A then of
    file B, each under a name that is a single path component, both calls
    of [save_uploaded_file] returning: after the second call the upload
    directory has an entry under the name of B (the regular file with the
    bytes of B when [os.unlink] does not fail on that path); the entry of
    A is gone when the names differ and [os.unlink] does not fail on the
    path of A; every entry other than that of B was in the directory
    after the first call and is one the clearing loop leaves alone
    (neither a regular file nor a symbolic link, or its [os.unlink]
    failed).  When the directory at first held only files and links that
    can be unlinked, and so can A, the directory contains only file B. *)
Theorem second_upload_replaces_first fA fB w dA w1 dB w2 :
  plain_name (name fA) = true → plain_name (name fB) = true →
  save_uploaded_file fA w = (Ok dA, w1) →
  save_uploaded_file fB w1 = (Ok dB, w2) →
  ∃ m2, data w2 = Directory m2
    ∧ is_Some (m2 !! name fB)
    ∧ (unlink_error (os_path_join "data" (name fB)) = None →
       m2 !! name fB = Some (File (getbuffer fB)))
    ∧ (name fA ≠ name fB →
       unlink_error (os_path_join "data" (name fA)) = None →
       m2 !! name fA = None)
    ∧ (∀ n e, n ≠ name fB → m2 !! n = Some e →
         entries_of (data w1) !! n = Some e ∧ removable n e = false)
    ∧ ((∀ n e, entries_of (data w) !! n = Some e → removable n e = true) →
       unlink_error (os_path_join "data" (name fA)) = None →
       m2 = {[ name fB := File (getbuffer fB) ]}).
Proof.
  intros HpA HpB HsA HsB.
  destruct (save_uploaded_file_ok_data _ _ _ _ HpA HsA) as [Hd1 Hdir1].
  destruct (save_uploaded_file_ok_data _ _ _ _ HpB HsB) as [Hd2 Hdir2].
  eexists. split; [exact Hd2|].
  assert (HA : unlink_error (os_path_join "data" (name fA)) = None →
               ∀ e, entries_of (data w1) !! name fA = Some e →
                    removable (name fA) e = true).
  { intros Hu e. rewrite Hd1. simpl.
    rewrite (lookup_written_file _ _ Hu Hdir1). intros [= <-].
    unfold removable. by rewrite Hu. }
  split_and!.
  - apply lookup_written_is_Some.
  - intros Hu. by apply lookup_written_file.
  - intros Hne Hu. rewrite lookup_written_ne by done.
    destruct (kept (entries_of (data w1)) !! name fA) as [e|] eqn:He;
      [|done].
    apply lookup_kept in He as [He Hr]. rewrite (HA Hu _ He) in Hr.
    discriminate.
  - intros n e. apply lookup_written_kept.
  - intros Hall Hu. rewrite kept_all_removable; [apply written_empty|].
    intros n e. rewrite Hd1. simpl.
    rewrite (kept_all_removable _ Hall), written_empty.
    intros [<- <-]%lookup_singleton_Some.
    unfold removable. by rewrite Hu.
Qed.

(** C10, as amended.  [save_uploaded_file] deletes only regular files and
    symbolic links: whatever the upload directory holds and whatever the
    upload is named, every subdirectory in it before the call is a
    subdirectory of it after the call, whether the call returns or raises,
    with all that it held.  When the name of the upload is a single path
    component, every subdirectory is there unchanged, and an entry that
    is gone or changed afterwards was a regular file or a symbolic
    link. *)
Theorem save_uploaded_file_keeps_subdirectories f w m :
  data w = Directory m →
  ∃ m', data (save_uploaded_file f w).2 = Directory m'
    ∧ (∀ n c, m !! n = Some (Dir c) →
         ∃ c', m' !! n = Some (Dir c') ∧ c ⊆ c')
    ∧ (plain_name (name f) = true →
       (∀ n c, m !! n = Some (Dir c) → m' !! n = Some (Dir c))
       ∧ (∀ n e, m !! n = Some e → m' !! n ≠ Some e →
            isfile e || islink e = true)).
Proof.
  intros Hd. eexists. split; [by apply save_uploaded_file_data|].
  assert (Hk : ∀ n c, m !! n = Some (Dir c) → kept m !! n = Some (Dir c)).
  { intros n c Hn. by apply lookup_kept. }
  split.
  - intros n c Hn%Hk.
    destruct (write_result f (kept m)) as [m'|e] eqn:Hw.
    + by eapply write_result_dir.
    + by exists c.
  - intros Hp.
    assert (Hkeep : ∀ n c, m !! n = Some (Dir c) →
              match write_result f (kept m) with
              | Ok m' => m'
              | Raise _ => kept m
              end !! n = Some (Dir c)).
    { intros n c Hn. specialize (Hk _ _ Hn).
      destruct (write_result f (kept m)) as [m'|e] eqn:Hw; [|done].
      destruct (write_result_plain _ _ _ Hp Hw) as [-> Hdir].
      destruct (decide (n = name f)) as [->|Hne].
      - by rewrite Hk in Hdir.
      - by rewrite lookup_written_ne. }
    split; [done|]. intros n e Hn Hchanged.
    destruct e as [c|t|c]; simpl; try done; [by destruct t|].
    destruct Hchanged. by apply Hkeep.
Qed.


(** ** The Save API Key action *)

Lemma truthy_nonempty s : truthy s = true ↔ s ≠ "".
Proof. destruct s; simpl; split; congruence. Qed.

Lemma save_api_key_run key w :
  save_api_key key w
  = match dotenv w with
    | EnvDirectory =>
        (Raise "[Errno 21] Is a directory: '.env'",
         set_trace (trace w ++ [Enter F_save_api_key]) w)
    | d =>
        match dotenv_write_error with
        | Some msg =>
            (Raise msg, set_trace (trace w ++ [Enter F_save_api_key]) w)
        | None =>
            let d' := EnvFile (<["GROQ_API_KEY" := key]>
                                 match d with EnvFile kv => kv | _ => ∅ end)
            in
            if has_nul key then
              (Raise "embedded null byte",
               set_dotenv d'
                 (set_trace (trace w ++ [Enter F_save_api_key]) w))
            else
              (Ok true,
               set_trace
                 (trace w ++ [Enter F_save_api_key; Leave F_save_api_key])
                 (set_environ (<["GROQ_API_KEY" := key]> (environ w))
                    (set_dotenv d' w)))
        end
    end.
Proof.
  destruct w as [d e en v fs u0 t]. simpl.
  unfold save_api_key, call, emit, bind, modify, env_exists, get, when,
    touch_env, set_key, write_dotenv, environ_set, bind, get, raise, ret.
  change (has_nul "GROQ_API_KEY") with false. simpl.
  destruct e; simpl; try reflexivity;
    destruct dotenv_write_error as [msg|]; simpl; try reflexivity;
    destruct (has_nul key); simpl; rewrite <- ?app_assoc; reflexivity.
Qed.


(** The two ways a call of [save_api_key] ends. *)
Lemma save_api_key_cases key w :
  (∃ e w', save_api_key key w = (Raise e, w')
     ∧ trace w' = trace w ++ [Enter F_save_api_key] ∧ ui w' = ui w
     ∧ environ w' = environ w ∧ data w' = data w
     ∧ vector_store_ready w' = vector_store_ready w
     ∧ faiss_store w' = faiss_store w)
  ∨ (∃ w', save_api_key key w = (Ok true, w')
     ∧ trace w' = trace w ++ [Enter F_save_api_key; Leave F_save_api_key]
     ∧ ui w' = ui w
     ∧ environ w' = <["GROQ_API_KEY" := key]> (environ w)
     ∧ data w' = data w
     ∧ vector_store_ready w' = vector_store_ready w
     ∧ faiss_store w' = faiss_store w
     ∧ dotenv w'
       = EnvFile (<["GROQ_API_KEY" := key]>
                    match dotenv w with EnvFile kv => kv | _ => ∅ end)
     ∧ dotenv w ≠ EnvDirectory ∧ dotenv_write_error = None
     ∧ has_nul key = false).
Proof.
  rewrite save_api_key_run.
  destruct (dotenv w) as [|kv|] eqn:Hd;
    [| | left; eexists _, _; by split_and!];
    (destruct dotenv_write_error as [msg|];
       [left; eexists _, _; by split_and!|]);
    (destruct (has_nul key);
       [left; eexists _, _; by split_and! | right; eexists; by split_and!]).
Qed.


(** C6.  When the save-credential action runs with an empty input, the
    error is shown, [save_api_key] is not called (the trace is unchanged),
    and neither [.env] nor the process environment changes.  The handler
    changes nothing but the page. *)
Theorem save_empty_key_changes_nothing w :
  save_key_handler "" w
  = (Ok tt, set_ui (ui w ++ [Error "Please enter a valid key."]) w)
  ∧ trace (save_key_handler "" w).2 = trace w
  ∧ dotenv (save_key_handler "" w).2 = dotenv w
  ∧ environ (save_key_handler "" w).2 = environ w.
Proof. done. Qed.

(** ** The Get Answer action *)

(** C7.  When the Get Answer action runs with an empty query, the warning
    is shown and nothing else happens: the trace is unchanged, so neither
    [RAGSearch] is constructed nor [search_and_summarize] called. *)
Theorem empty_query_warns w :
  answer_handler "" w
  = (Ok tt, set_ui (ui w ++ [Warning "Please enter a query."]) w)
  ∧ trace (answer_handler "" w).2 = trace w.
Proof. done. Qed.

(** The two handlers that wrap their work in [try]/[except] never raise. *)
Lemma process_handler_catches f w : (process_handler f w).1 = Ok tt.
Proof.
  unfold process_handler, bind, st_spinner, render, modify, try_except.
  by destruct (process_document f _) as [[[]|e] w'].
Qed.

Lemma answer_handler_catches q w : (answer_handler q w).1 = Ok tt.
Proof.
  unfold answer_handler. destruct (truthy q); [|done].
  unfold bind, st_spinner, render, modify, try_except.
  by destruct (answer q _) as [[[]|e] w'].
Qed.

(** ** Relations between the worlds before and after a piece of script *)

Lemma respects_ret R `{!Reflexive R} {A} (a : A) : respects R (ret a).
Proof. intros w. simpl. reflexivity. Qed.

Lemma respects_bind R `{!Transitive R} {A B}
    (m : M World A) (k : A → M World B) :
  respects R m → (∀ a, respects R (k a)) → respects R (bind m k).
Proof.
  intros Hm Hk w. unfold bind. specialize (Hm w).
  destruct (m w) as [[a|e] w1]; simpl in *; [|done].
  etrans; [exact Hm | apply Hk].
Qed.

Lemma respects_when R `{!Reflexive R} b (m : M World unit) :
  (b = true → respects R m) → respects R (when b m).
Proof. destruct b; simpl; [auto | intros _; by apply respects_ret]. Qed.

(** A widget returns its value. *)
Lemma respects_widget R `{!Transitive R} {A B} el (v : A)
    (k : A → M World B) :
  respects R (render el) → respects R (k v) →
  respects R (do x <- (render el ;; ret v) ; k x).
Proof.
  intros Hr Hk w. change (R w (k v (render el w).2).2).
  etrans; [apply Hr | apply Hk].
Qed.

#[local] Instance sidebar_step_refl inp : Reflexive (sidebar_step inp).
Proof.
  intros w. exists [], []. rewrite !app_nil_r.
  split_and!; try done; close_lists; by left.
Qed.

#[local] Instance sidebar_step_trans inp : Transitive (sidebar_step inp).
Proof.
  intros w1 w2 w3 (t1 & u1 & Ht1 & Hu1 & Hs1 & Hq1 & Hf1)
                  (t2 & u2 & Ht2 & Hu2 & Hs2 & Hq2 & Hf2).
  exists (t1 ++ t2), (u1 ++ u2). rewrite !app_assoc, <- Ht1, <- Hu1.
  split_and!; try done;
    try (by apply search_free_app); try (by apply query_free_app).
  destruct Hf2 as [Hf2|(Hf2 & Hin & Hup & Hclick)].
  - destruct Hf1 as [Hf1|(Hf1 & Hin & Hup & Hclick)].
    + left. congruence.
    + right. split; [congruence|]. split; [|done].
      apply elem_of_app. by left.
  - right. split; [done|]. split; [|done]. apply elem_of_app. by right.
Qed.

Lemma sidebar_step_render inp el :
  query_free [el] → respects (sidebar_step inp) (render el).
Proof.
  intros Hq w. exists [], [el]. simpl. rewrite app_nil_r.
  split_and!; try done; close_lists; by left.
Qed.

Lemma sidebar_step_save_key inp key :
  respects (sidebar_step inp) (save_key_handler key).
Proof.
  intros w. unfold save_key_handler. destruct (truthy key).
  - destruct (save_api_key_cases key w)
      as [(e & w' & Hrun & Ht & Hu & _ & _ & Hv & _)
         |(w' & Hrun & Ht & Hu & _ & _ & Hv & _)].
    + rewrite (bind_raise _ _ _ _ _ Hrun). simpl.
      exists [Enter F_save_api_key], []. rewrite app_nil_r.
      split_and!; try done; close_lists. by left.
    + rewrite (bind_ok _ _ _ _ _ Hrun).
      unfold st_success, render, modify. simpl.
      eexists _, [_]. rewrite Hu.
      split_and!; try done; close_lists. by left.
  - exists [], [Error "Please enter a valid key."]. simpl.
    rewrite app_nil_r. split_and!; close_lists; try done. by left.
Qed.

Lemma sidebar_step_process inp f :
  uploaded_file inp = Some f → process_clicked inp = true →
  respects (sidebar_step inp) (process_handler f).
Proof.
  intros Hup Hclick w. unfold process_handler.
  set (w0 := set_ui (ui w ++ [Spinner "Processing document..."]) w).
  assert (Hrun : ∃ (t : list Event) (u : list Element),
            trace (process_handler f w).2 = trace w0 ++ t
            ∧ ui (process_handler f w).2 = ui w0 ++ u
            ∧ search_free t ∧ query_free u
            ∧ (vector_store_ready (process_handler f w).2
               = vector_store_ready w0
               ∨ (vector_store_ready (process_handler f w).2 = Some true
                  ∧ Leave F_build_from_documents ∈ t))).
  { unfold process_handler, bind, st_spinner, render, modify, try_except.
    fold w0.
    destruct (process_document_run f w0)
      as (r & w' & t & u & -> & Ht & Hu & Hs & Hq & _ & _ & _ & Hr).
    destruct r as [[]|e]; simpl.
    - exists t, u. split_and!; try done. right.
      destruct Hr as (Hv & _ & Hl). split; [done|].
      apply last_Some in Hl as [t' ->]. apply elem_of_app. right.
      by apply list_elem_of_singleton.
    - exists t, (u ++ [Error ("Error processing document: " +:+ e)]).
      split_and!;
        first [ done | solve [close_lists]
              | by rewrite Hu, <- app_assoc | left; by destruct Hr ]. }
  destruct Hrun as (t & u & Ht & Hu & Hs & Hq & Hf).
  exists t, ([Spinner "Processing document..."] ++ u).
  rewrite app_assoc. split_and!; try done; close_lists.
  destruct Hf as [Hf|[Hf Hin]]; [by left|]. right.
  by split_and!.
Qed.

Lemma sidebar_respects inp : respects (sidebar_step inp) (sidebar inp).
Proof.
  unfold sidebar, st_header, st_markdown, st_text_input, st_file_uploader,
    st_button.
  apply respects_bind; [apply _ | | intros _].
  { apply sidebar_step_render; split; not_in_list. }
  apply respects_widget; [apply _ | | ].
  { apply sidebar_step_render; split; not_in_list. }
  apply respects_widget; [apply _ | | ].
  { apply sidebar_step_render; split; not_in_list. }
  apply respects_bind; [apply _ | | intros _].
  { apply respects_when; [apply _ | intros _].
    apply sidebar_step_save_key. }
  apply respects_bind; [apply _ | | intros _].
  { apply sidebar_step_render; split; not_in_list. }
  apply respects_bind; [apply _ | | intros _].
  { apply sidebar_step_render; split; not_in_list. }
  apply respects_widget; [apply _ | | ].
  { apply sidebar_step_render; split; not_in_list. }
  destruct (uploaded_file inp) as [f|] eqn:Hup;
    [|apply respects_ret; apply _].
  apply respects_widget; [apply _ | | ].
  - apply sidebar_step_render; split; not_in_list.
  - apply respects_when; [apply _ | intros Hb].
    by apply sidebar_step_process.
Qed.

(** ** The main pane *)

Lemma answer_handler_run q w :
  ∃ (t : list Event) (u : list Element),
    trace (answer_handler q w).2 = trace w ++ t
    ∧ ui (answer_handler q w).2 = ui w ++ u
    ∧ vector_store_ready (answer_handler q w).2 = vector_store_ready w
    ∧ environ (answer_handler q w).2 = environ w.
Proof.
  unfold answer_handler. destruct (truthy q).
  - unfold answer, call, emit, bind, get, lift, modify, st_spinner,
      st_subheader, st_markdown, st_error, render, try_except, ret. simpl.
    destruct (RAGSearch _ _) as [[]|e]; simpl;
      [destruct (search_and_summarize _ _ _ _) as [summary|e]; simpl|];
      eexists _, _; simpl; rewrite <- ?app_assoc;
      split_and!; reflexivity.
  - exists [], [Warning "Please enter a query."]. simpl.
    by rewrite app_nil_r.
Qed.

Lemma main_step_quiet w w' u :
  vector_store_ready w' = vector_store_ready w → trace w' = trace w →
  ui w' = ui w ++ u → query_free u → main_step w w'.
Proof.
  intros Hv Ht Hu Hq. split; [done|]. exists [], u. rewrite app_nil_r.
  split_and!; try done. left. split; [apply search_free_nil | done].
Qed.

Lemma main_pane_run inp w : main_step w (main_pane inp w).2.
Proof.
  unfold main_pane, st_title, st_markdown, st_warning, st_info,
    st_text_input, st_button, load_dotenv, os_getenv,
    read_vector_store_ready.
  set (env1 := loaded w).
  set (w1 := set_environ env1
               (set_ui (ui w ++ [Title "🤖 RAG Summarizer";
                  Markdown "Ask questions based on the documents you uploaded."])
                  w)).
  assert (Hstart : ∀ (k : M World unit),
            (st_title "🤖 RAG Summarizer" ;;
             st_markdown "Ask questions based on the documents you uploaded." ;;
             load_dotenv ;; k) w = k w1).
  { intros k. unfold st_title, st_markdown, load_dotenv, render, modify, bind.
    simpl. subst w1 env1. rewrite <- app_assoc. simpl.
    by destruct w as [d e en v fs u0 t]. }
  unfold st_title, st_markdown, load_dotenv in Hstart. rewrite Hstart.
  unfold bind at 1. unfold get at 1.
  assert (Hw1 : vector_store_ready w1 = vector_store_ready w
                ∧ trace w1 = trace w
                ∧ ui w1 = ui w ++ [Title "🤖 RAG Summarizer";
                     Markdown "Ask questions based on the documents you uploaded."])
    by done.
  destruct Hw1 as (Hv1 & Ht1 & Hu1).
  destruct (environ w1 !! "GROQ_API_KEY") as [key|] eqn:Hkey; simpl;
    [destruct (truthy key) eqn:Htruthy; simpl|].
  - unfold bind at 1. unfold bind at 1. unfold get at 1.
    destruct (vector_store_ready w1) as [[|]|] eqn:Hready; simpl.
    + unfold bind at 1. unfold bind at 1. unfold render at 1.
      unfold modify at 1. unfold ret at 1.
      unfold bind at 1. unfold bind at 1. unfold render at 1.
      unfold modify at 1. unfold ret at 1.
      set (w2 := set_ui _ (set_ui _ w1)).
      assert (Hw2 : vector_store_ready w2 = Some true
                    ∧ trace w2 = trace w ∧ environ w2 = environ w1
                    ∧ ∃ u, ui w2 = ui w ++ u).
      { subst w2. split_and!.
        - exact Hready.
        - exact Ht1.
        - reflexivity.
        - eexists. simpl. rewrite <- !app_assoc. reflexivity. }
      destruct Hw2 as (Hv2 & Ht2 & He2 & u2 & Hu2).
      destruct (answer_clicked inp); simpl.
      * destruct (answer_handler_run (query inp) w2)
          as (t & u & Ht & Hu & Hv & He).
        split; [congruence|]. exists t, (u2 ++ u).
        rewrite Ht, Hu, Ht2, Hu2, app_assoc. split_and!; try done.
        right. split; [congruence|]. exists key.
        rewrite He, He2. split; [done|]. by apply truthy_nonempty.
      * split; [congruence|]. exists [], u2.
        rewrite Ht2, Hu2, app_nil_r. split_and!; try done.
        right. split; [congruence|]. exists key.
        rewrite He2. split; [done|]. by apply truthy_nonempty.
    + eapply main_step_quiet;
        [done | done | simpl; rewrite <- ?app_assoc; reflexivity
        | split; not_in_list].
    + eapply main_step_quiet;
        [done | done | simpl; rewrite <- ?app_assoc; reflexivity
        | split; not_in_list].
  - eapply main_step_quiet;
      [done | done | simpl; rewrite <- ?app_assoc; reflexivity
      | split; not_in_list].
  - eapply main_step_quiet;
      [done | done | simpl; rewrite <- ?app_assoc; reflexivity
      | split; not_in_list].
Qed.

(** ** One run of the script, and sessions *)

Lemma init_session_state_run w :
  init_session_state w
  = (Ok tt, match vector_store_ready w with
            | None => set_vector_store_ready (Some false) w
            | Some _ => w
            end).
Proof.
  unfold init_session_state, bind, get.
  by destruct (vector_store_ready w).
Qed.

Lemma query_ui_shown_not_free w : query_ui_shown w → ¬ query_free (ui w).
Proof. intros [H|H] [H1 H2]; auto. Qed.

(** The facts about one run that the session properties rest on. *)
Lemma rerun_facts w inp :
  ∃ t : list Event,
    trace (rerun w inp) = trace w ++ t
    ∧ (vector_store_ready w = Some true →
       vector_store_ready (rerun w inp) = Some true)
    ∧ (vector_store_ready w ≠ Some true →
       vector_store_ready (rerun w inp) = Some true →
       Leave F_build_from_documents ∈ t
       ∧ is_Some (uploaded_file inp) ∧ process_clicked inp = true)
    ∧ (vector_store_ready (rerun w inp) ≠ Some true → search_free t)
    ∧ (query_ui_shown (rerun w inp) →
       credential_present (rerun w inp)
       ∧ vector_store_ready (rerun w inp) = Some true).
Proof.
  unfold rerun, script.
  rewrite (bind_ok _ _ _ _ _ (init_session_state_run (set_ui [] w))).
  set (w1 := match vector_store_ready (set_ui [] w) with
             | None => set_vector_store_ready (Some false) (set_ui [] w)
             | Some _ => set_ui [] w
             end).
  assert (Hw1 : trace w1 = trace w ∧ ui w1 = []
                ∧ (vector_store_ready w1 = Some true
                   ↔ vector_store_ready w = Some true)).
  { subst w1. simpl. destruct (vector_store_ready w) as [b|] eqn:Hv; simpl;
      rewrite ?Hv; split_and!; try done. }
  destruct Hw1 as (Ht1 & Hu1 & Hv1).
  destruct (sidebar_respects inp w1) as (ts & us & Hts & Hus & Hss & Hqs & Hfs).
  rewrite Ht1 in Hts. rewrite Hu1 in Hus. simpl in Hus.
  assert (Hside :
    (vector_store_ready w = Some true →
     vector_store_ready (sidebar inp w1).2 = Some true)
    ∧ (vector_store_ready w ≠ Some true →
       vector_store_ready (sidebar inp w1).2 = Some true →
       Leave F_build_from_documents ∈ ts
       ∧ is_Some (uploaded_file inp) ∧ process_clicked inp = true)).
  { split.
    - intros Hv%Hv1. destruct Hfs as [Hfs|[Hfs _]]; congruence.
    - intros Hv Hv'. destruct Hfs as [Hfs|[_ Hfs]]; [|done].
      destruct Hv. apply Hv1. congruence. }
  destruct Hside as [Hside1 Hside2].
  assert (Hfin : ((sidebar inp ;; main_pane inp) w1).2
                 = match sidebar inp w1 with
                   | (Ok _, w2) => (main_pane inp w2).2
                   | (Raise _, w2) => w2
                   end).
  { unfold bind. by destruct (sidebar inp w1) as [[?|?] ?]. }
  rewrite Hfin. clear Hfin.
  destruct (sidebar inp w1) as [[[]|e] w2] eqn:Hsb; simpl in *.
  - destruct (main_pane_run inp w2) as (Hvm & tm & um & Htm & Hum & Hm).
    exists (ts ++ tm). rewrite Htm, Hts, app_assoc, Hvm.
    split_and!; try done.
    + intros Hv Hv'. destruct (Hside2 Hv Hv') as (Hin & Hup).
      split; [|done]. apply elem_of_app. by left.
    + intros Hv. destruct Hm as [[Hsm _]|[Hm _]]; [|done].
      by apply search_free_app.
    + intros Hshown%query_ui_shown_not_free.
      destruct Hm as [[_ Hqm]|[Hm Hcred]]; [|done].
      destruct Hshown. rewrite Hum, Hus. by apply query_free_app.
  - exists ts. split_and!; try done.
    intros Hshown%query_ui_shown_not_free. destruct Hshown. by rewrite Hus.
Qed.

Lemma session_ready_stays w inps w' :
  vector_store_ready w = Some true → w' ∈ session w inps →
  vector_store_ready w' = Some true.
Proof.
  revert w. induction inps as [|inp inps IH]; intros w Hv Hin; simpl in Hin.
  - by apply elem_of_nil in Hin.
  - destruct (rerun_facts w inp) as (t & _ & Hkeep & _).
    apply elem_of_cons in Hin as [->|Hin]; [auto|].
    apply (IH (rerun w inp)); auto.
Qed.

Lemma rerun_search_locked w inp :
  search_locked w → search_locked (rerun w inp).
Proof.
  intros Hinv Hv. destruct (rerun_facts w inp) as (t & -> & Hkeep & _ & Hs & _).
  apply search_free_app; [|by apply Hs].
  apply Hinv. intros Hv'. by apply Hv, Hkeep.
Qed.

Lemma session_search_locked w inps w' :
  search_locked w → w' ∈ session w inps → search_locked w'.
Proof.
  revert w. induction inps as [|inp inps IH]; intros w Hinv Hin; simpl in Hin.
  - by apply elem_of_nil in Hin.
  - apply elem_of_cons in Hin as [->|Hin].
    + by apply rerun_search_locked.
    + apply (IH (rerun w inp)); [by apply rerun_search_locked | done].
Qed.

Lemma session_is_rerun w inps w' :
  w' ∈ session w inps → ∃ w1 inp, w' = rerun w1 inp.
Proof.
  revert w. induction inps as [|inp inps IH]; intros w Hin; simpl in Hin.
  - by apply elem_of_nil in Hin.
  - apply elem_of_cons in Hin as [->|Hin]; [by eexists _, _ | eauto].
Qed.

(** C3.  In every session, after whatever runs of the script: the query
    input and the Get Answer button are on the page only when the
    credential is present and the flag [vector_store_ready] is true; and
    while the flag is not true (no process-document action has completed),
    they are not on the page and neither [RAGSearch] nor
    [search_and_summarize] has been called. *)
Theorem query_ui_gated w0 inps w :
  fresh w0 → w ∈ session w0 inps →
  (query_ui_shown w →
   credential_present w ∧ vector_store_ready w = Some true)
  ∧ (vector_store_ready w ≠ Some true →
     ¬ query_ui_shown w ∧ search_free (trace w)).
Proof.
  intros [Hv0 Ht0] Hin.
  assert (Hgate : query_ui_shown w →
                  credential_present w ∧ vector_store_ready w = Some true).
  { destruct (session_is_rerun _ _ _ Hin) as (w1 & inp & ->).
    by destruct (rerun_facts w1 inp) as (t & _ & _ & _ & _ & Hg). }
  split; [done|]. intros Hv. split.
  - intros Hshown. by destruct (Hgate Hshown).
  - apply (session_search_locked w0 inps); [|done..].
    intros _. rewrite Ht0. apply search_free_nil.
Qed.

(** C4.  The flag [vector_store_ready] is initialised false; a run of the
    script turns it true only when the process-document action was
    triggered in that run and the index build returned, and the
    assignment comes right after that return, before any other call; an
    action that raises leaves the flag as it was; and once true the flag
    stays true through all later runs, whatever they upload and whether
    their builds fail. *)
Theorem vector_store_ready_lifecycle :
  (∀ w, vector_store_ready w = None →
     vector_store_ready (init_session_state w).2 = Some false)
  ∧ (∀ w inp,
       vector_store_ready w ≠ Some true →
       vector_store_ready (rerun w inp) = Some true →
       ∃ t, trace (rerun w inp) = trace w ++ t
            ∧ Leave F_build_from_documents ∈ t
            ∧ is_Some (uploaded_file inp) ∧ process_clicked inp = true)
  ∧ (∀ f w w',
       process_document f w = (Ok tt, w') →
       vector_store_ready w' = Some true
       ∧ ∃ t, trace w' = trace w ++ t
              ∧ last t = Some (Leave F_build_from_documents))
  ∧ (∀ f w e w',
       process_document f w = (Raise e, w') →
       vector_store_ready w' = vector_store_ready w)
  ∧ (∀ w inps w',
       vector_store_ready w = Some true → w' ∈ session w inps →
       vector_store_ready w' = Some true).
Proof.
  split_and!.
  - intros w Hv. rewrite init_session_state_run. by rewrite Hv.
  - intros w inp Hv Hv'.
    destruct (rerun_facts w inp) as (t & Ht & _ & Hset & _).
    exists t. split; [done|]. by apply Hset.
  - intros f w w' (Hv & _ & Ht)%process_document_ok_inv. by split.
  - intros f w e w' Hp. by destruct (process_document_raise_flag _ _ _ _ Hp).
  - apply session_ready_stays.
Qed.

(** ** More on [save_api_key] *)

(** X1.  A call of [save_api_key] that returns changes the binding of
    [GROQ_API_KEY] and nothing else: every other key of [.env] and every
    other environment variable keeps its value, and the upload directory,
    the session flag, the index and the page are as before.  It returns
    [True]. *)
Theorem save_api_key_frame key w r w' :
  save_api_key key w = (Ok r, w') →
  r = true
  ∧ (∀ k, k ≠ "GROQ_API_KEY" →
       dotenv_get (dotenv w') k = dotenv_get (dotenv w) k
       ∧ environ w' !! k = environ w !! k)
  ∧ data w' = data w
  ∧ vector_store_ready w' = vector_store_ready w
  ∧ faiss_store w' = faiss_store w
  ∧ ui w' = ui w.
Proof.
  intros Hs.
  destruct (save_api_key_cases key w)
    as [(e & w1 & Hrun & _)
       |(w1 & Hrun & _ & Hu & Henv & Hd & Hv & Hf & Hdot & _)];
    rewrite Hs in Hrun; [done|].
  injection Hrun as -> ->. split_and!; try done.
  intros k Hk. rewrite Hdot, Henv. simpl.
  rewrite !lookup_insert_ne by done. split; [|done].
  destruct (dotenv w); simpl; by rewrite ?lookup_empty.
Qed.

(** X2.  The credential is overwritten on each save: once a first call has
    returned, a second call with a key that holds no NUL character returns
    too, and it leaves [.env] and the environment exactly as if the first
    call had never been made. *)
Theorem save_api_key_last_wins k1 k2 w r1 w1 :
  save_api_key k1 w = (Ok r1, w1) → has_nul k2 = false →
  ∃ w2, save_api_key k2 w1 = (Ok true, w2)
    ∧ dotenv w2 = dotenv (save_api_key k2 w).2
    ∧ environ w2 = environ (save_api_key k2 w).2
    ∧ dotenv_get (dotenv w2) "GROQ_API_KEY" = Some k2
    ∧ environ w2 !! "GROQ_API_KEY" = Some k2.
Proof.
  intros Hs Hnul.
  destruct (save_api_key_cases k1 w)
    as [(e & w' & Hrun & _)
       |(w' & Hrun & _ & _ & Henv & _ & _ & _ & Hdot & Hdir & Herr & _)];
    rewrite Hs in Hrun; [done|].
  injection Hrun as -> ->.
  rewrite !save_api_key_run, Hdot, Herr, Hnul. cbv zeta.
  eexists. split; [reflexivity|]. simpl. rewrite Henv.
  destruct (dotenv w) as [|kv|]; [| |done]; simpl;
    rewrite !insert_insert_eq, ?lookup_insert_eq; by split_and!.
Qed.

(** ** More on [save_uploaded_file] *)

Lemma lookup_kept_dir m n c :
  m !! n = Some (Dir c) → kept m !! n = Some (Dir c).
Proof. intros Hn. by apply lookup_kept. Qed.

(** X3.  What a call of [save_uploaded_file] that returns tells: it
    returns the directory path ["data"]; the path [data] was missing or a
    directory before, not a regular file and not a symbolic link whose
    target is missing ([os.listdir] and [os.makedirs] raise on these); the
    name of the upload is not the name of a subdirectory of [data]
    ([open] raises on it); and [data] is a directory afterwards. *)
Theorem save_uploaded_file_returns_only_if f w d w' :
  save_uploaded_file f w = (Ok d, w') →
  d = "data"
  ∧ (data w = Absent ∨ ∃ m, data w = Directory m)
  ∧ (∀ c, entries_of (data w) !! name f ≠ Some (Dir c))
  ∧ ∃ m', data w' = Directory m'.
Proof.
  intros (-> & m' & Hw & Hl & Hd)%save_uploaded_file_ok_inv.
  split_and!; [done | | | by exists m'].
  - destruct (data w); simplify_eq/=; eauto.
  - intros c Hc. apply lookup_kept_dir in Hc.
    by rewrite (write_result_raise_dir _ _ _ Hc) in Hw.
Qed.

(** X4.  The clearing is not undone when the write fails: if the name of the
    upload is the name of a subdirectory, the call raises, nothing is
    written, and yet every file and link that could be unlinked is gone. *)
Theorem save_uploaded_file_clears_before_failing f w m c :
  data w = Directory m → m !! name f = Some (Dir c) →
  ∃ e w', save_uploaded_file f w = (Raise e, w')
    ∧ data w' = Directory (kept m)
    ∧ kept m !! name f = Some (Dir c)
    ∧ ∀ n x, m !! n = Some x → removable n x = true → kept m !! n = None.
Proof.
  intros Hd Hc.
  destruct (save_uploaded_file_run f w) as (u & _ & Hrun).
  rewrite Hd in Hrun. simpl in Hrun.
  pose proof (lookup_kept_dir _ _ _ Hc) as Hk.
  rewrite (write_result_raise_dir _ _ _ Hk) in Hrun.
  eexists _, _. split; [exact Hrun|].
  simpl. split_and!; try done.
  intros n x Hn Hr. destruct (kept m !! n) as [y|] eqn:Hy; [|done].
  apply lookup_kept in Hy as [Hy Hr']. congruence.
Qed.

Lemma kept_idem m : kept (kept m) = kept m.
Proof.
  apply map_eq. intros x. apply option_eq. intros y.
  rewrite !lookup_kept. tauto.
Qed.

Lemma kept_insert m n e :
  kept (<[n := e]> m)
  = if removable n e then delete n (kept m) else <[n := e]> (kept m).
Proof.
  apply map_eq. intros x. apply option_eq. intros y. rewrite lookup_kept.
  destruct (decide (x = n)) as [->|Hne].
  - rewrite lookup_insert_eq. destruct (removable n e) eqn:Hr.
    + rewrite lookup_delete_eq. split; [|done].
      intros [[= <-] Hr']. congruence.
    + rewrite lookup_insert_eq. split; [by intros [? _]|].
      intros [= <-]. by split.
  - rewrite lookup_insert_ne by done.
    destruct (removable n e);
      rewrite ?lookup_delete_ne, ?lookup_insert_ne by done;
      by rewrite lookup_kept.
Qed.

(** An entry that survived the clearing loop and is a file or a link is
    one whose [os.unlink] fails, whatever it is overwritten with. *)
Lemma kept_not_removable m n e e' :
  kept m !! n = Some e → isfile e || islink e = true →
  removable n e' = false.
Proof.
  intros [_ Hr]%lookup_kept Hfl. unfold removable in *.
  rewrite Hfl in Hr. simpl in Hr. rewrite Hr. apply andb_false_r.
Qed.

Lemma add_child_idem n c : add_child n (add_child n c) = add_child n c.
Proof.
  unfold add_child. destruct (decide (n ∈ c)) as [Hin|Hnin].
  - rewrite (bool_decide_eq_true_2 (n ∈ c)) by done.
    by rewrite bool_decide_eq_true_2.
  - rewrite (bool_decide_eq_false_2 (n ∈ c)) by done.
    rewrite bool_decide_eq_true_2; [done|].
    apply elem_of_app. right. by apply list_elem_of_singleton.
Qed.

(** Writing never makes a directory. *)
Lemma write_at_is_dir path t buf m m' x :
  write_at path t buf m = Ok m' →
  is_dir (m' !! x) = true → is_dir (m !! x) = true.
Proof.
  intros Hw. destruct t as [n|d n|]; simpl in Hw.
  - destruct (decide (x = n)) as [->|Hne].
    + destruct (m !! n) as [[b|t'|c]|]; simplify_eq/=;
        by rewrite lookup_insert_eq.
    + destruct (m !! n) as [[b|t'|c]|]; simplify_eq/=;
        by rewrite lookup_insert_ne.
  - destruct (m !! d) as [[b|t'|c]|] eqn:Hd; simplify_eq/=.
    destruct (decide (x = d)) as [->|Hne].
    + by rewrite Hd.
    + by rewrite lookup_insert_ne.
  - by injection Hw as <-.
Qed.

(** The same write after the same clearing gives the same directory. *)
Lemma write_at_idem path t buf m m1 :
  write_at path t buf (kept m) = Ok m1 →
  write_at path t buf (kept m1) = Ok m1.
Proof.
  intros Hw. destruct t as [n|d n|]; simpl in *.
  - destruct (kept m !! n) as [[b|t'|c]|] eqn:Hn; simplify_eq/=.
    + rewrite kept_insert, kept_idem.
      rewrite (kept_not_removable _ _ _ _ Hn) by done.
      by rewrite lookup_insert_eq, insert_insert_eq.
    + rewrite kept_insert, kept_idem.
      rewrite (kept_not_removable _ _ _ _ Hn) by (by destruct t').
      by rewrite lookup_insert_eq, insert_insert_eq.
    + rewrite kept_insert, kept_idem.
      destruct (removable n (File buf)).
      * by rewrite lookup_delete_eq, insert_delete_eq.
      * by rewrite lookup_insert_eq, insert_insert_eq.
  - destruct (kept m !! d) as [[b|t'|c]|] eqn:Hd; simplify_eq/=.
    rewrite kept_insert, kept_idem.
    assert (Hr : removable d (Dir (add_child n c)) = false) by done.
    rewrite Hr, lookup_insert_eq, insert_insert_eq.
    by rewrite add_child_idem.
  - injection Hw as <-. by rewrite kept_idem.
Qed.

Lemma write_result_idem f m m1 :
  write_result f (kept m) = Ok m1 → write_result f (kept m1) = Ok m1.
Proof.
  unfold write_result.
  destruct (is_dir (kept m !! name f)) eqn:Hdir; [done|].
  destruct (open_wb _) as [t|e]; [|done]. intros Hw.
  destruct (is_dir (kept m1 !! name f)) eqn:Hdir1.
  - assert (Hm1 : is_dir (m1 !! name f) = true).
    { destruct (kept m1 !! name f) as [[b|t'|c]|] eqn:Hk; try done.
      apply lookup_kept in Hk as [-> _]. done. }
    rewrite (write_at_is_dir _ _ _ _ _ _ Hw Hm1) in Hdir. done.
  - by apply (write_at_idem _ _ _ m).
Qed.

(** X5.  Uploading the same file twice in a row leaves the upload directory
    exactly as the first upload left it (when [os.unlink] does not fail on
    the path of the file). *)
Theorem save_uploaded_file_twice f w d w1 :
  save_uploaded_file f w = (Ok d, w1) →
  unlink_error (os_path_join "data" (name f)) = None →
  ∃ w2, save_uploaded_file f w1 = (Ok "data", w2) ∧ data w2 = data w1.
Proof.
  intros (_ & m1 & Hw & _ & Hd1)%save_uploaded_file_ok_inv _.
  destruct (save_uploaded_file_run f w1) as (u & _ & Hrun).
  rewrite Hd1 in Hrun. simpl in Hrun.
  rewrite (write_result_idem _ _ _ Hw) in Hrun.
  eexists. split; [exact Hrun|]. simpl. by rewrite Hd1.
Qed.

(** ** The error banners of the clearing loop *)

Lemma clear_entry_exact w m n :
  data w = Directory m →
  clear_entry "data" n w
  = (Ok tt, set_ui (ui w ++ round_errors m n)
              (set_data (Directory (clear_one m n)) w)).
Proof.
  intros Hd. unfold clear_entry, clear_one, round_errors, removable.
  unfold try_except, bind, os_path_isfile, os_path_islink, lookup_entry,
    get, ret, when, os_unlink, bind. simpl. rewrite Hd.
  destruct (m !! n) as [e|] eqn:He; simpl.
  - destruct (isfile e || islink e) eqn:Hfl; simpl.
    + destruct (unlink_error (os_path_join "data" n)) as [msg|] eqn:Hu; simpl.
      * unfold st_error, render, modify, deletion_error. simpl.
        destruct w; simpl in *; by subst.
      * unfold modify. rewrite Hd. rewrite app_nil_r.
        destruct w; simpl in *; by subst.
    + rewrite app_nil_r. destruct w; simpl in *; by subst.
  - rewrite app_nil_r. destruct w; simpl in *; by subst.
Qed.

Lemma for_each_clear_exact l : ∀ w m,
  data w = Directory m →
  for_each l (clear_entry "data") w
  = (Ok tt, set_ui (ui w ++ loop_errors m l)
              (set_data (Directory (foldl clear_one m l)) w)).
Proof.
  induction l as [|n l IH]; intros w m Hd; simpl.
  - rewrite app_nil_r. unfold ret. destruct w; simpl in *; by subst.
  - rewrite (bind_ok _ _ _ _ _ (clear_entry_exact w m n Hd)).
    rewrite (IH _ (clear_one m n)) by done. simpl. by rewrite app_assoc.
Qed.

Lemma save_uploaded_file_ui f w m :
  data w = Directory m →
  ui (save_uploaded_file f w).2 = ui w ++ loop_errors m (map_to_list m).*1.
Proof.
  intros Hd.
  set (w0 := set_trace (trace w ++ [Enter F_save_uploaded_file]) w).
  assert (Hd0 : data w0 = Directory m) by done.
  assert (Hrun : ui (save_uploaded_file f w).2 = ui (clear_and_write f w0).2).
  { destruct w as [d e en v fs u0 t]. simpl in Hd. subst d.
    change (save_uploaded_file f _)
      with (match clear_and_write f w0 with
            | (Ok x, w') =>
                (Ok x,
                 set_trace (trace w' ++ [Leave F_save_uploaded_file]) w')
            | (Raise e, w') => (Raise e, w')
            end).
    by destruct (clear_and_write f w0) as [[x|x] w']. }
  rewrite Hrun. unfold clear_and_write.
  unfold bind at 1. unfold os_listdir_data at 1.
  unfold bind at 1. unfold get at 1. rewrite Hd0. unfold ret at 1.
  unfold bind at 1. rewrite (for_each_clear_exact _ w0 m Hd0).
  unfold bind, write_wb, get, bind, ret, raise, modify, lift. simpl.
  destruct (is_dir _); [done|].
  destruct (open_wb _) as [t|e]; [|done].
  by destruct (write_at _ _ _ _) as [m'|e].
Qed.

Lemma lookup_clear_one_Some m a n e :
  clear_one m a !! n = Some e → m !! n = Some e.
Proof.
  rewrite lookup_clear_one. destruct (m !! n) as [x|]; simpl; [|done].
  by destruct (bool_decide (n = a) && removable n x).
Qed.

Lemma loop_errors_complete l : ∀ m n e msg,
  n ∈ l → m !! n = Some e → isfile e || islink e = true →
  unlink_error (os_path_join "data" n) = Some msg →
  deletion_error n msg ∈ loop_errors m l.
Proof.
  induction l as [|a l IH]; intros m n e msg Hin Hn Hfl Hu; simpl.
  - by apply elem_of_nil in Hin.
  - apply elem_of_app. destruct (decide (n = a)) as [->|Hne].
    + left. unfold round_errors. rewrite Hn, Hfl, Hu.
      by apply list_elem_of_singleton.
    + right. apply elem_of_cons in Hin as [?|Hin]; [done|].
      apply (IH _ _ e); try done.
      rewrite lookup_clear_one, Hn. simpl.
      by rewrite bool_decide_eq_false_2.
Qed.

Lemma loop_errors_sound l : ∀ m el,
  el ∈ loop_errors m l →
  ∃ n e msg, m !! n = Some e ∧ isfile e || islink e = true
    ∧ unlink_error (os_path_join "data" n) = Some msg
    ∧ el = deletion_error n msg.
Proof.
  induction l as [|a l IH]; intros m el Hel; simpl in Hel.
  - by apply elem_of_nil in Hel.
  - apply elem_of_app in Hel as [Hel|Hel].
    + unfold round_errors in Hel.
      destruct (m !! a) as [e|] eqn:Ha; [|by apply elem_of_nil in Hel].
      destruct (isfile e || islink e) eqn:Hfl;
        [|by apply elem_of_nil in Hel].
      destruct (unlink_error (os_path_join "data" a)) as [msg|] eqn:Hu;
        [|by apply elem_of_nil in Hel].
      apply list_elem_of_singleton in Hel. by exists a, e, msg.
    + destruct (IH _ _ Hel) as (n & e & msg & Hn & Hrest).
      exists n, e, msg. split; [|done]. by eapply lookup_clear_one_Some.
Qed.

(** X6.  Deletion failures are reported one by one and do not stop the call:
    what [save_uploaded_file] adds to the page is a banner "Failed to
    delete data/<name>. Reason: <error>" for each file or link whose
    [os.unlink] raised, and nothing else, whatever the upload is named;
    and when the name of the upload is a single path component, such an
    entry, unless it has the name of the upload, is still in the directory
    afterwards as it was. *)
Theorem save_uploaded_file_reports_failures f w m :
  data w = Directory m →
  (∀ el, el ∈ ui (save_uploaded_file f w).2
         ↔ el ∈ ui w
           ∨ ∃ n e msg, m !! n = Some e ∧ isfile e || islink e = true
               ∧ unlink_error (os_path_join "data" n) = Some msg
               ∧ el = deletion_error n msg)
  ∧ (plain_name (name f) = true →
     ∀ n e msg, m !! n = Some e →
       unlink_error (os_path_join "data" n) = Some msg → n ≠ name f →
       entries_of (data (save_uploaded_file f w).2) !! n = Some e).
Proof.
  intros Hd. split.
  - intros el. rewrite (save_uploaded_file_ui f w m Hd), elem_of_app.
    split; (intros [Hold|Hnew]; [by left|right]).
    + by eapply loop_errors_sound.
    + destruct Hnew as (n & e & msg & Hn & Hfl & Hu & ->).
      apply (loop_errors_complete _ _ _ e); try done.
      apply list_elem_of_fmap. exists (n, e). split; [done|].
      by apply elem_of_map_to_list.
  - intros Hp n e msg Hn Hu Hne.
    rewrite (save_uploaded_file_data f w m Hd). simpl.
    assert (Hk : kept m !! n = Some e).
    { apply lookup_kept. split; [done|].
      unfold removable. rewrite Hu. apply andb_false_r. }
    destruct (write_result f (kept m)) as [m'|e'] eqn:Hw; [|done].
    destruct (write_result_plain _ _ _ Hp Hw) as [-> _].
    by rewrite lookup_written_ne.
Qed.

(** ** More on the Process Document action *)

Lemma process_document_ok_exact f w w' :
  process_document f w = (Ok tt, w') →
  ∃ docs ix (u : list Element),
    load_all_documents (data w') = Ok docs
    ∧ FaissVectorStore "faiss_store" = Ok tt
    ∧ build_from_documents docs = Ok ix
    ∧ faiss_store w' = Some ix
    ∧ only_errors u
    ∧ ui w' = ui w ++ u
              ++ [Write ("Loaded " +:+ pretty (length docs)
                           +:+ " document chunks.");
                  Success "Vector Store Index Built Successfully!"]
    ∧ trace w'
      = trace w ++ [Enter F_save_uploaded_file; Leave F_save_uploaded_file;
                    Enter F_load_all_documents; Leave F_load_all_documents;
                    Enter F_FaissVectorStore; Leave F_FaissVectorStore;
                    Enter F_build_from_documents;
                    Leave F_build_from_documents].
Proof.
  intros Hp.
  destruct (save_uploaded_file_run f w) as (u & Herr & Hs).
  revert Hp. unfold process_document.
  destruct (listed (data w)) as [m0|e0];
    [|rewrite (bind_raise _ _ _ _ _ Hs); discriminate].
  destruct (write_result f (kept m0)) as [m'|e];
    [|rewrite (bind_raise _ _ _ _ _ Hs); discriminate].
  rewrite (bind_ok _ _ _ _ _ Hs).
  unfold call, emit, bind, get, lift, modify, st_write, st_success,
    render, ret. simpl.
  destruct (load_all_documents _) as [docs|e] eqn:Hload; simpl;
    [|discriminate].
  destruct (FaissVectorStore _) as [[]|e] eqn:Hstore; simpl; [|discriminate].
  destruct (build_from_documents docs) as [ix|e] eqn:Hbuild; simpl;
    [|discriminate].
  intros [= <-]. exists docs, ix, u. simpl.
  rewrite <- !app_assoc. by split_and!.
Qed.

(** X7.  The steps of a successful process-document action: the file is saved
    first, the loader then reads the directory as the save left it (with
    the entry of the upload in it, when the name of the upload is a single
    path component), the page tells how many chunks it returned, and the
    index that is stored is the one built from exactly those chunks; the
    success banner comes last. *)
Theorem process_document_pipeline f w w' :
  process_document f w = (Ok tt, w') →
  ∃ docs ix,
    load_all_documents (data w') = Ok docs
    ∧ (∃ d w1, save_uploaded_file f w = (Ok d, w1) ∧ data w' = data w1)
    ∧ (plain_name (name f) = true →
       is_Some (entries_of (data w') !! name f))
    ∧ build_from_documents docs = Ok ix
    ∧ faiss_store w' = Some ix
    ∧ Write ("Loaded " +:+ pretty (length docs) +:+ " document chunks.")
      ∈ ui w'
    ∧ last (ui w') = Some (Success "Vector Store Index Built Successfully!")
    ∧ trace w'
      = trace w ++ [Enter F_save_uploaded_file; Leave F_save_uploaded_file;
                    Enter F_load_all_documents; Leave F_load_all_documents;
                    Enter F_FaissVectorStore; Leave F_FaissVectorStore;
                    Enter F_build_from_documents;
                    Leave F_build_from_documents].
Proof.
  intros Hp.
  destruct (process_document_ok_exact _ _ _ Hp)
    as (docs & ix & u & Hload & _ & Hbuild & Hix & _ & Hui & Htr).
  destruct (process_document_ok_inv _ _ _ Hp) as (_ & (d & w1 & Hs & Hd) & _).
  exists docs, ix. split_and!; try done.
  - by exists d, w1.
  - intros Hplain. rewrite Hd.
    destruct (save_uploaded_file_ok_data _ _ _ _ Hplain Hs) as [-> _].
    simpl. apply lookup_written_is_Some.
  - rewrite Hui, !elem_of_app. right. right. apply elem_of_cons. by left.
  - rewrite Hui, !app_assoc.
    change [Write ("Loaded " +:+ pretty (length docs) +:+ " document chunks.");
            Success "Vector Store Index Built Successfully!"]
      with ([Write ("Loaded " +:+ pretty (length docs)
                      +:+ " document chunks.")]
            ++ [Success "Vector Store Index Built Successfully!"]).
    by rewrite app_assoc, last_snoc.
Qed.

(** X8.  The Process Document handler never lets an exception out, whatever
    the backend and the file system do.  It ends in one of two ways: with
    the success banner last on the page and the flag true, or with a
    banner "Error processing document: <error>" last on the page and the
    flag, the stored index, [.env] and the environment as they were, so
    that after an earlier success a failed action leaves the flag true
    and the earlier index in place. *)
Theorem process_handler_outcome f w :
  (process_handler f w).1 = Ok tt
  ∧ ((last (ui (process_handler f w).2)
      = Some (Success "Vector Store Index Built Successfully!")
      ∧ vector_store_ready (process_handler f w).2 = Some true)
     ∨ (∃ e, last (ui (process_handler f w).2)
             = Some (Error ("Error processing document: " +:+ e))
        ∧ vector_store_ready (process_handler f w).2 = vector_store_ready w
        ∧ faiss_store (process_handler f w).2 = faiss_store w
        ∧ dotenv (process_handler f w).2 = dotenv w
        ∧ environ (process_handler f w).2 = environ w)).
Proof.
  unfold process_handler, bind, st_spinner, render, modify, try_except.
  set (w0 := set_ui (ui w ++ [Spinner "Processing document..."]) w).
  destruct (process_document f w0) as [[[]|e] w'] eqn:Hp; simpl.
  - split; [done|]. left.
    destruct (process_document_ok_exact _ _ _ Hp)
      as (docs & ix & u & _ & _ & _ & _ & _ & Hui & _).
    destruct (process_document_ok_inv _ _ _ Hp) as (Hv & _).
    split; [|done]. rewrite Hui, !app_assoc.
    change [Write ("Loaded " +:+ pretty (length docs) +:+ " document chunks.");
            Success "Vector Store Index Built Successfully!"]
      with ([Write ("Loaded " +:+ pretty (length docs)
                      +:+ " document chunks.")]
            ++ [Success "Vector Store Index Built Successfully!"]).
    by rewrite app_assoc, last_snoc.
  - split; [done|]. right. exists e. unfold st_error, render, modify. simpl.
    rewrite last_snoc.
    destruct (process_document_raise_flag _ _ _ _ Hp) as (? & ? & ? & ? & _).
    by split_and!.
Qed.

(** ** More on the Get Answer action *)

Lemma answer_handler_frame q w :
  (answer_handler q w).1 = Ok tt
  ∧ data (answer_handler q w).2 = data w
  ∧ dotenv (answer_handler q w).2 = dotenv w
  ∧ environ (answer_handler q w).2 = environ w
  ∧ vector_store_ready (answer_handler q w).2 = vector_store_ready w
  ∧ faiss_store (answer_handler q w).2 = faiss_store w.
Proof.
  unfold answer_handler. destruct (truthy q); [|done].
  unfold answer, call, emit, bind, get, lift, modify, st_spinner,
    st_subheader, st_markdown, st_error, render, try_except, ret. simpl.
  destruct (RAGSearch _ _) as [[]|e]; simpl;
    [destruct (search_and_summarize _ _ _ _) as [summary|e]; simpl|];
    done.
Qed.

(** X9.  The Get Answer handler never lets an exception out and changes
    nothing but the page and the trace: whatever the query and whatever
    the search backend does, the upload directory, [.env], the
    environment, the flag and the stored index are as before. *)
Theorem answer_handler_read_only q w :
  (answer_handler q w).1 = Ok tt
  ∧ data (answer_handler q w).2 = data w
  ∧ dotenv (answer_handler q w).2 = dotenv w
  ∧ environ (answer_handler q w).2 = environ w
  ∧ vector_store_ready (answer_handler q w).2 = vector_store_ready w
  ∧ faiss_store (answer_handler q w).2 = faiss_store w.
Proof. apply answer_handler_frame. Qed.

(** X10.  What a non-empty query gets: [RAGSearch] is constructed and
    [search_and_summarize] is called with the query and [top_k = 3] on the
    stored index; when both return, the page shows the summary under
    "Summary Result:"; when either raises, the page shows "An error
    occurred: <error>" and no summary, and a failed constructor means that
    [search_and_summarize] is not called. *)
Theorem answer_handler_outcome q w :
  q ≠ "" →
  match RAGSearch (faiss_store w) (environ w) with
  | Ok _ =>
      match search_and_summarize (faiss_store w) (environ w) q 3 with
      | Ok summary =>
          ui (answer_handler q w).2
          = ui w ++ [Spinner "Searching and generating summary...";
                     Subheader "Summary Result:"; Markdown summary]
          ∧ trace (answer_handler q w).2
            = trace w ++ [Enter F_RAGSearch; Leave F_RAGSearch;
                          Enter F_search_and_summarize;
                          Leave F_search_and_summarize]
      | Raise e =>
          ui (answer_handler q w).2
          = ui w ++ [Spinner "Searching and generating summary...";
                     Error ("An error occurred: " +:+ e)]
          ∧ trace (answer_handler q w).2
            = trace w ++ [Enter F_RAGSearch; Leave F_RAGSearch;
                          Enter F_search_and_summarize]
      end
  | Raise e =>
      ui (answer_handler q w).2
      = ui w ++ [Spinner "Searching and generating summary...";
                 Error ("An error occurred: " +:+ e)]
      ∧ trace (answer_handler q w).2 = trace w ++ [Enter F_RAGSearch]
  end.
Proof.
  intros Hq%truthy_nonempty. unfold answer_handler. rewrite Hq.
  unfold answer, call, emit, bind, get, lift, modify, st_spinner,
    st_subheader, st_markdown, st_error, render, try_except, ret. simpl.
  destruct (RAGSearch _ _) as [[]|e]; simpl;
    [destruct (search_and_summarize _ _ _ _) as [summary|e]; simpl|];
    rewrite <- ?app_assoc; done.
Qed.

(** ** More on the main pane *)

(** The main pane, branch by branch. *)
Lemma main_pane_eq inp w :
  main_pane inp w
  = let env1 := loaded w in
    let w1 := set_environ env1
                (set_ui (ui w ++ [Title "🤖 RAG Summarizer";
                   Markdown "Ask questions based on the documents you uploaded."])
                   w) in
    let w2 := set_ui (ui w1 ++ [TextInput query_input_label;
                                Button get_answer_label]) w1 in
    if from_option truthy false (env1 !! "GROQ_API_KEY") then
      match vector_store_ready w with
      | Some true =>
          if answer_clicked inp then answer_handler (query inp) w2
          else (Ok tt, w2)
      | Some false =>
          (Ok tt,
           set_ui (ui w1 ++ [Info "👈 Please upload and process a document in the sidebar to start."]) w1)
      | None =>
          (Raise "st.session_state has no attribute 'vector_store_ready'",
           w1)
      end
    else
      (Ok tt,
       set_ui (ui w1 ++ [Warning "⚠️ Please enter and save your Groq API Key in the sidebar to proceed."]) w1).
Proof.
  destruct w as [d e en v fs u0 t].
  unfold main_pane, st_title, st_markdown, st_warning, st_info,
    st_text_input, st_button, load_dotenv, os_getenv,
    read_vector_store_ready, render, modify, get, bind, ret, raise, when,
    loaded.
  simpl. rewrite <- !app_assoc. simpl.
  match goal with
  | |- context [from_option truthy false ?x] => destruct x as [key|]
  end; simpl; [destruct (truthy key); simpl|];
    try (destruct v as [[|]|]; simpl; try destruct (answer_clicked inp));
    unfold set_ui, set_environ; simpl; rewrite <- ?app_assoc; reflexivity.
Qed.

Lemma main_pane_exact inp w :
  let env1 := loaded w in
  let head := [Title "🤖 RAG Summarizer";
               Markdown "Ask questions based on the documents you uploaded."]
  in
  environ (main_pane inp w).2 = env1
  ∧ data (main_pane inp w).2 = data w
  ∧ dotenv (main_pane inp w).2 = dotenv w
  ∧ faiss_store (main_pane inp w).2 = faiss_store w
  ∧ ∃ u : list Element,
      ui (main_pane inp w).2 = ui w ++ head ++ u
      ∧ if from_option truthy false (env1 !! "GROQ_API_KEY") then
          match vector_store_ready w with
          | Some true =>
              (main_pane inp w).1 = Ok tt
              ∧ ∃ rest, u = TextInput query_input_label
                            :: Button get_answer_label :: rest
          | Some false =>
              (main_pane inp w).1 = Ok tt
              ∧ u = [Info "👈 Please upload and process a document in the sidebar to start."]
          | None => u = []
          end
        else
          (main_pane inp w).1 = Ok tt
          ∧ u = [Warning "⚠️ Please enter and save your Groq API Key in the sidebar to proceed."].
Proof.
  intros env1 head. rewrite (main_pane_eq inp w). cbv zeta.
  fold env1. fold head.
  destruct (from_option truthy false (env1 !! "GROQ_API_KEY")) eqn:Hcred.
  - destruct (vector_store_ready w) as [[|]|] eqn:Hready.
    + destruct (answer_clicked inp).
      * match goal with
        | |- context [answer_handler _ ?x] => set (w2 := x)
        end.
        assert (Hu2 : ui w2 = ui w ++ head
                               ++ [TextInput query_input_label;
                                   Button get_answer_label]).
        { subst w2. simpl. by rewrite <- !app_assoc. }
        destruct (answer_handler_frame (query inp) w2)
          as (Hok & Hd & Hdot & He & _ & Hf).
        destruct (answer_handler_run (query inp) w2)
          as (t & u & _ & Hu & _).
        rewrite Hd, Hdot, He, Hf. split_and!; try done.
        exists ([TextInput query_input_label; Button get_answer_label] ++ u).
        split; [by rewrite Hu, Hu2, <- !app_assoc|].
        split; [done|]. by exists u.
      * simpl. split_and!; try done.
        exists [TextInput query_input_label; Button get_answer_label].
        split; [by rewrite <- !app_assoc|]. split; [done|]. by exists [].
    + simpl. split_and!; try done. eexists. split; [|done].
      by rewrite <- !app_assoc.
    + simpl. split_and!; try done. exists []. split; [|done].
      subst head. simpl. by rewrite <- ?app_assoc.
  - simpl. split_and!; try done. eexists. split; [|done].
    by rewrite <- !app_assoc.
Qed.



(** [load_dotenv] does not override a variable that is set. *)
Lemma lookup_loaded w k v :
  environ w !! k = Some v → loaded w !! k = Some v.
Proof. intros Hk. unfold loaded. by apply lookup_union_Some_l. Qed.

(** ** What runs of the script keep *)

#[local] Instance keeps_credential_preorder : PreOrder keeps_credential.
Proof. split; unfold keeps_credential; [intros w; auto | intros w1 w2 w3; auto]. Qed.

#[local] Instance keeps_files_preorder : PreOrder keeps_files.
Proof.
  split; unfold keeps_files; [by intros w|].
  intros w1 w2 w3 [? ?] [? ?]. split; congruence.
Qed.

#[local] Instance keeps_env_preorder : PreOrder keeps_env.
Proof.
  split; unfold keeps_env; [by intros w|].
  intros w1 w2 w3 [? ?] [? ?]. split; congruence.
Qed.

(** The sidebar keeps a relation that its three kinds of steps keep. *)
Lemma sidebar_respects_gen R `{!PreOrder R} inp :
  (∀ el, respects R (render el)) →
  (save_clicked inp = true →
   respects R (save_key_handler (api_key_input inp))) →
  (∀ f, uploaded_file inp = Some f → process_clicked inp = true →
        respects R (process_handler f)) →
  respects R (sidebar inp).
Proof.
  intros Hrender Hsave Hprocess.
  unfold sidebar, st_header, st_markdown, st_text_input, st_file_uploader,
    st_button.
  apply respects_bind; [apply _ | apply Hrender | intros _].
  apply respects_widget; [apply _ | apply Hrender | ].
  apply respects_widget; [apply _ | apply Hrender | ].
  apply respects_bind; [apply _ | | intros _].
  { apply respects_when; [apply _ | done]. }
  apply respects_bind; [apply _ | apply Hrender | intros _].
  apply respects_bind; [apply _ | apply Hrender | intros _].
  apply respects_widget; [apply _ | apply Hrender | ].
  destruct (uploaded_file inp) as [f|] eqn:Hup;
    [|apply respects_ret; apply _].
  apply respects_widget; [apply _ | apply Hrender | ].
  apply respects_when; [apply _ | intros Hb]. by apply Hprocess.
Qed.

Lemma process_handler_keeps_env f : respects keeps_env (process_handler f).
Proof.
  intros w. unfold process_handler, bind, st_spinner, render, modify,
    try_except.
  set (w0 := set_ui (ui w ++ [Spinner "Processing document..."]) w).
  destruct (process_document_run f w0)
    as (r & w' & t & u & -> & _ & _ & _ & _ & _ & Hdot & Henv & _).
  destruct r as [[]|e]; by split.
Qed.

Lemma save_key_handler_keeps_credential key :
  respects keeps_credential (save_key_handler key).
Proof.
  intros w Hc. unfold save_key_handler.
  destruct (truthy key) eqn:Hkey; [|done].
  destruct (save_api_key_cases key w)
    as [(e & w' & Hrun & _ & _ & Henv & _)
       |(w' & Hrun & _ & _ & Henv & _)].
  - rewrite (bind_raise _ _ _ _ _ Hrun). simpl.
    destruct Hc as (v & Hv & Hne). exists v. by rewrite Henv.
  - rewrite (bind_ok _ _ _ _ _ Hrun). exists key. simpl.
    rewrite Henv, lookup_insert_eq. split; [done | by apply truthy_nonempty].
Qed.

Lemma save_key_handler_keeps_files key :
  respects keeps_files (save_key_handler key).
Proof.
  intros w. unfold save_key_handler. destruct (truthy key); [|done].
  destruct (save_api_key_cases key w)
    as [(e & w' & Hrun & _ & _ & _ & Hd & _ & Hf)
       |(w' & Hrun & _ & _ & _ & Hd & _ & Hf & _)].
  - by rewrite (bind_raise _ _ _ _ _ Hrun).
  - by rewrite (bind_ok _ _ _ _ _ Hrun).
Qed.

Lemma sidebar_keeps_credential inp :
  respects keeps_credential (sidebar inp).
Proof.
  apply sidebar_respects_gen; [apply _ | intros el w Hc; exact Hc | | ].
  - intros _. apply save_key_handler_keeps_credential.
  - intros f _ _ w (v & Hv & Hne).
    destruct (process_handler_keeps_env f w) as [_ Henv].
    exists v. by rewrite Henv.
Qed.

Lemma init_session_state_keeps w :
  environ (init_session_state w).2 = environ w
  ∧ dotenv (init_session_state w).2 = dotenv w
  ∧ data (init_session_state w).2 = data w
  ∧ faiss_store (init_session_state w).2 = faiss_store w
  ∧ ui (init_session_state w).2 = ui w
  ∧ is_Some (vector_store_ready (init_session_state w).2)
  ∧ (vector_store_ready w = Some true →
     vector_store_ready (init_session_state w).2 = Some true).
Proof.
  rewrite init_session_state_run.
  destruct (vector_store_ready w) as [b|] eqn:Hv; simpl;
    rewrite ?Hv; split_and!; eauto; done.
Qed.

(** The world after a run, in terms of its three parts. *)
Lemma rerun_parts w inp :
  let w1 := (init_session_state (set_ui [] w)).2 in
  match sidebar inp w1 with
  | (Ok _, w2) =>
      rerun w inp = (main_pane inp w2).2
      ∧ (script inp (set_ui [] w)).1 = (main_pane inp w2).1
  | (Raise e, w2) =>
      rerun w inp = w2 ∧ (script inp (set_ui [] w)).1 = Raise e
  end.
Proof.
  unfold rerun, script.
  rewrite (bind_ok _ _ _ _ _ (init_session_state_run (set_ui [] w))).
  rewrite init_session_state_run. simpl. unfold bind.
  by destruct (sidebar inp _) as [[[]|e] w2].
Qed.

Lemma rerun_keeps_credential w inp :
  credential_present w → credential_present (rerun w inp).
Proof.
  intros Hc. pose proof (rerun_parts w inp) as Hparts. simpl in Hparts.
  set (w1 := (init_session_state (set_ui [] w)).2) in *.
  assert (Hc1 : credential_present w1).
  { destruct (init_session_state_keeps (set_ui [] w)) as (Henv & _).
    destruct Hc as (v & Hv & Hne). exists v. fold w1 in Henv.
    by rewrite Henv. }
  pose proof (sidebar_keeps_credential inp w1 Hc1) as Hc2.
  destruct (sidebar inp w1) as [[[]|e] w2]; simpl in Hc2;
    destruct Hparts as [-> _]; [|done].
  destruct Hc2 as (v & Hv & Hne). exists v. split; [|done].
  destruct (main_pane_exact inp w2) as (-> & _).
  by apply lookup_loaded.
Qed.

(** X13.  Once the credential is present and the flag is true, both stay so
    after every later run of the session, whatever is clicked, typed or
    uploaded and whatever fails. *)
Theorem credential_and_flag_persist w inps w' :
  credential_present w → vector_store_ready w = Some true →
  w' ∈ session w inps →
  credential_present w' ∧ vector_store_ready w' = Some true.
Proof.
  intros Hc Hv Hin. split; [|by eapply session_ready_stays].
  revert w Hc Hv Hin.
  induction inps as [|inp inps IH]; intros w Hc Hv Hin; simpl in Hin.
  - by apply elem_of_nil in Hin.
  - apply elem_of_cons in Hin as [->|Hin].
    + by apply rerun_keeps_credential.
    + apply (IH (rerun w inp)); [by apply rerun_keeps_credential | | done].
      destruct (rerun_facts w inp) as (t & _ & Hkeep & _). auto.
Qed.

(** X14.  With the credential present and the flag true before a run, the
    query input and the Get Answer button are on the page after it, if
    the run is not aborted by an exception. *)
Theorem query_ui_stays w inp :
  credential_present w → vector_store_ready w = Some true →
  (script inp (set_ui [] w)).1 = Ok tt →
  query_ui_shown (rerun w inp).
Proof.
  intros Hc Hv Hok. pose proof (rerun_parts w inp) as Hparts.
  simpl in Hparts.
  set (w1 := (init_session_state (set_ui [] w)).2) in *.
  destruct (init_session_state_keeps (set_ui [] w))
    as (Henv & _ & _ & _ & _ & _ & Hv1).
  fold w1 in Henv, Hv1. specialize (Hv1 Hv).
  assert (Hc1 : credential_present w1).
  { destruct Hc as (v & Hcv & Hne). exists v. by rewrite Henv. }
  pose proof (sidebar_keeps_credential inp w1 Hc1) as Hc2.
  destruct (sidebar_respects inp w1) as (ts & us & _ & _ & _ & _ & Hf).
  destruct (sidebar inp w1) as [[[]|e] w2]; simpl in *;
    destruct Hparts as [-> Hres]; [|congruence].
  assert (Hv2 : vector_store_ready w2 = Some true).
  { destruct Hf as [Hf|[Hf _]]; congruence. }
  destruct (main_pane_exact inp w2) as (_ & _ & _ & _ & u & Hu & Hcase).
  assert (Ht : from_option truthy false
                 (loaded w2 !! "GROQ_API_KEY") = true).
  { destruct Hc2 as (v & Hcv & Hne).
    assert (Hl : loaded w2 !! "GROQ_API_KEY" = Some v)
      by (by apply lookup_loaded).
    rewrite Hl. simpl. by apply truthy_nonempty. }
  rewrite Ht, Hv2 in Hcase. destruct Hcase as (_ & rest & ->).
  left. rewrite Hu, !elem_of_app. right. right. apply elem_of_cons. by left.
Qed.

Lemma sidebar_keeps_files inp :
  uploaded_file inp = None ∨ process_clicked inp = false →
  respects keeps_files (sidebar inp).
Proof.
  intros Hno. apply sidebar_respects_gen; [apply _ | by intros el w | | ].
  - intros _. apply save_key_handler_keeps_files.
  - intros f Hup Hclick. destruct Hno; congruence.
Qed.

Lemma sidebar_keeps_env inp :
  save_clicked inp = false ∨ api_key_input inp = "" →
  respects keeps_env (sidebar inp).
Proof.
  intros Hno. apply sidebar_respects_gen; [apply _ | by intros el w | | ].
  - intros Hclick. destruct Hno as [Hs| ->]; [congruence|]. by intros w.
  - intros f _ _. apply process_handler_keeps_env.
Qed.

(** X15.  A run in which the process-document action is not triggered (no file
    uploaded, or the button not clicked) leaves the upload directory and
    the stored index as they were, and a flag that is set keeps its
    value. *)
Theorem no_process_keeps_files w inp :
  uploaded_file inp = None ∨ process_clicked inp = false →
  data (rerun w inp) = data w
  ∧ faiss_store (rerun w inp) = faiss_store w
  ∧ (is_Some (vector_store_ready w) →
     vector_store_ready (rerun w inp) = vector_store_ready w).
Proof.
  intros Hno. pose proof (rerun_parts w inp) as Hparts. simpl in Hparts.
  set (w1 := (init_session_state (set_ui [] w)).2) in *.
  assert (H1 : data w1 = data w ∧ faiss_store w1 = faiss_store w
               ∧ (is_Some (vector_store_ready w) →
                  vector_store_ready w1 = vector_store_ready w)).
  { subst w1. rewrite init_session_state_run. simpl.
    destruct (vector_store_ready w) as [b|] eqn:Hv; simpl; rewrite ?Hv;
      split_and!; try done; by intros [? ?]. }
  destruct H1 as (Hd1 & Hf1 & Hv1).
  destruct (sidebar_keeps_files inp Hno w1) as [Hd2 Hf2].
  destruct (sidebar_respects inp w1) as (ts & us & _ & _ & _ & _ & Hflag).
  assert (Hv2 : vector_store_ready (sidebar inp w1).2
                = vector_store_ready w1).
  { destruct Hflag as [Hflag|(_ & _ & [f Hup] & Hclick)]; [done|].
    destruct Hno; congruence. }
  destruct (sidebar inp w1) as [[[]|e] w2]; simpl in *;
    destruct Hparts as [-> _].
  - destruct (main_pane_exact inp w2) as (_ & Hd3 & _ & Hf3 & _).
    destruct (main_pane_run inp w2) as [Hv3 _].
    split_and!; [congruence | congruence |].
    intros Hs. rewrite Hv3, Hv2. auto.
  - split_and!; [congruence | congruence |].
    intros Hs. rewrite Hv2. auto.
Qed.

(** X16.  A run in which no credential is saved (Save API Key not clicked, or
    clicked with an empty input) leaves the file [.env] of the working
    directory as it was, and every environment variable that was set
    before the run has the same value after it: the script writes [.env]
    and the environment only when a credential is saved, and
    [load_dotenv] does not override. *)
Theorem no_save_keeps_dotenv w inp :
  save_clicked inp = false ∨ api_key_input inp = "" →
  dotenv (rerun w inp) = dotenv w
  ∧ ∀ k v, environ w !! k = Some v → environ (rerun w inp) !! k = Some v.
Proof.
  intros Hno. pose proof (rerun_parts w inp) as Hparts. simpl in Hparts.
  set (w1 := (init_session_state (set_ui [] w)).2) in *.
  destruct (init_session_state_keeps (set_ui [] w))
    as (Henv1 & Hdot1 & _).
  fold w1 in Henv1, Hdot1. simpl in Henv1, Hdot1.
  destruct (sidebar_keeps_env inp Hno w1) as [Hdot2 Henv2].
  destruct (sidebar inp w1) as [[[]|e] w2]; simpl in *;
    destruct Hparts as [-> _].
  - destruct (main_pane_exact inp w2) as (Henv3 & _ & Hdot3 & _).
    split; [congruence|]. intros k v Hk. rewrite Henv3.
    apply lookup_loaded. congruence.
  - split; [congruence|]. intros k v Hk. congruence.
Qed.

Lemma sidebar_split inp :
  sidebar inp
  = (st_header "⚙️ Configuration" ;;
     do api_key <- st_text_input "Enter Groq API Key" (api_key_input inp) ;
     do b <- st_button "Save API Key" (save_clicked inp) ;
     when b (save_key_handler api_key) ;;
     sidebar_upload inp).
Proof. reflexivity. Qed.

Lemma sidebar_upload_keeps_env inp :
  respects keeps_env (sidebar_upload inp).
Proof.
  unfold sidebar_upload, st_header, st_markdown, st_file_uploader, st_button.
  apply respects_bind; [apply _ | by intros w | intros _].
  apply respects_bind; [apply _ | by intros w | intros _].
  apply respects_widget; [apply _ | by intros w | ].
  destruct (uploaded_file inp) as [f|]; [|apply respects_ret; apply _].
  apply respects_widget; [apply _ | by intros w | ].
  apply respects_when; [apply _ | intros _].
  apply process_handler_keeps_env.
Qed.

(** The sidebar when a non-empty key is saved and [.env] can be written. *)
Lemma sidebar_saves_key inp w :
  save_clicked inp = true → api_key_input inp ≠ "" →
  has_nul (api_key_input inp) = false →
  dotenv w ≠ EnvDirectory → dotenv_write_error = None →
  ∃ w', sidebar inp w = sidebar_upload inp w'
    ∧ environ w' !! "GROQ_API_KEY" = Some (api_key_input inp)
    ∧ dotenv_get (dotenv w') "GROQ_API_KEY" = Some (api_key_input inp).
Proof.
  intros Hclick Hkey%truthy_nonempty Hnul Hdir Herr. rewrite sidebar_split.
  set (wa := set_ui (ui w ++ [Header "⚙️ Configuration";
                              TextInput "Enter Groq API Key";
                              Button "Save API Key"]) w).
  assert (Hstart : ∀ k : string → bool → M World unit,
            (st_header "⚙️ Configuration" ;;
             do api_key <- st_text_input "Enter Groq API Key"
                             (api_key_input inp) ;
             do b <- st_button "Save API Key" (save_clicked inp) ;
             k api_key b) w
            = k (api_key_input inp) true wa).
  { intros k. unfold st_header, st_text_input, st_button, render, modify,
      bind, ret. simpl. rewrite Hclick. subst wa. simpl.
    by rewrite <- !app_assoc. }
  rewrite (Hstart (λ api_key b,
                     when b (save_key_handler api_key) ;; sidebar_upload inp)).
  simpl. unfold save_key_handler. rewrite Hkey.
  pose proof (save_api_key_run (api_key_input inp) wa) as Hrun.
  change (dotenv wa) with (dotenv w) in Hrun.
  rewrite Herr, Hnul in Hrun. cbv zeta in Hrun.
  unfold bind at 1.
  destruct (dotenv w) as [|kv|] eqn:Hd; [| |done];
    rewrite (bind_ok _ _ _ _ _ Hrun);
    unfold st_success, render, modify;
    (eexists; split; [reflexivity|]); simpl;
    by rewrite !lookup_insert_eq.
Qed.

(** X17.  A credential saved in a run is in effect in that same run: when Save
    API Key is clicked with a non-empty key that holds no NUL character,
    and [.env] is missing or a file that can be written, then after the
    run [.env] and the environment bind [GROQ_API_KEY] to the key, and if
    the run was not aborted and the flag is true after it, the query input
    and the Get Answer button are on the page. *)
Theorem saved_key_in_effect w inp :
  save_clicked inp = true → api_key_input inp ≠ "" →
  has_nul (api_key_input inp) = false →
  dotenv w ≠ EnvDirectory → dotenv_write_error = None →
  environ (rerun w inp) !! "GROQ_API_KEY" = Some (api_key_input inp)
  ∧ dotenv_get (dotenv (rerun w inp)) "GROQ_API_KEY"
    = Some (api_key_input inp)
  ∧ ((script inp (set_ui [] w)).1 = Ok tt →
     vector_store_ready (rerun w inp) = Some true →
     query_ui_shown (rerun w inp)).
Proof.
  intros Hclick Hkey Hnul Hdir Herr. pose proof (rerun_parts w inp) as Hparts.
  simpl in Hparts.
  set (w1 := (init_session_state (set_ui [] w)).2) in *.
  destruct (init_session_state_keeps (set_ui [] w))
    as (_ & Hdot1 & _).
  fold w1 in Hdot1. simpl in Hdot1.
  assert (Hdir1 : dotenv w1 ≠ EnvDirectory) by (by rewrite Hdot1).
  destruct (sidebar_saves_key inp w1 Hclick Hkey Hnul Hdir1 Herr)
    as (wb & Hside & Henvb & Hdotb).
  rewrite Hside in Hparts.
  destruct (sidebar_upload_keeps_env inp wb) as [Hdot2 Henv2].
  destruct (sidebar_upload inp wb) as [[[]|e] w2]; simpl in *.
  - destruct Hparts as [-> ->].
    destruct (main_pane_exact inp w2)
      as (Henv3 & _ & Hdot3 & _ & u & Hu & Hcase).
    destruct (main_pane_run inp w2) as [Hv3 _].
    assert (Hl : loaded w2 !! "GROQ_API_KEY" = Some (api_key_input inp)).
    { apply lookup_loaded. congruence. }
    rewrite Hl in Hcase. simpl in Hcase.
    apply truthy_nonempty in Hkey. rewrite Hkey in Hcase.
    split_and!.
    + by rewrite Henv3.
    + congruence.
    + intros _. rewrite Hv3. intros Hv. rewrite Hv in Hcase.
      destruct Hcase as (_ & rest & ->). left.
      rewrite Hu, !elem_of_app. right. right. apply elem_of_cons. by left.
  - destruct Hparts as [-> ->]. split_and!; [congruence | congruence | done].
Qed.

End Properties.

(** * The properties at concrete inputs *)

(** C9.  The Save API Key handler has no [try]/[except]: when [.env] is a
    directory, [set_key] raises, the exception leaves the handler and
    aborts the run of the script before the main pane is drawn, and no
    error banner is rendered. *)
Theorem save_key_handler_propagates :
  (save_key_handler "gsk_1" env_is_directory).1
  = Raise "[Errno 21] Is a directory: '.env'"
  ∧ (script (click_save "gsk_1") env_is_directory).1
    = Raise "[Errno 21] Is a directory: '.env'"
  ∧ ui (rerun env_is_directory (click_save "gsk_1"))
    = [Header "⚙️ Configuration"; TextInput "Enter Groq API Key";
       Button "Save API Key"].
Proof. by vm_compute. Qed.

(** The claim C1 as stated fails: with a subdirectory in the upload
    directory the action completes and two entries are left. *)
Lemma process_document_leaves_subdirectory :
  process_document a_txt session_with_subdir
  = (Ok tt, (process_document a_txt session_with_subdir).2)
  ∧ entries_of (data (process_document a_txt session_with_subdir).2) !! "old"
    = Some (Dir ["x.txt"])
  ∧ data (process_document a_txt session_with_subdir).2
    ≠ Directory {[ "a.txt" := File [Byte.x61] ]}.
Proof.
  split_and!; [by vm_compute | by vm_compute |].
  intros H. apply (f_equal (λ d, entries_of d !! "old")) in H.
  vm_compute in H. discriminate.
Qed.

Lemma process_document_success_witness :
  process_document a_txt session_with_subdir
  = (Ok tt, (process_document a_txt session_with_subdir).2)
  ∧ vector_store_ready (process_document a_txt session_with_subdir).2
    = Some true
  ∧ ∃ m', data (process_document a_txt session_with_subdir).2
          = Directory m'
    ∧ m' !! "a.txt" = Some (File [Byte.x61]).
Proof.
  assert (H : process_document a_txt session_with_subdir
              = (Ok tt, (process_document a_txt session_with_subdir).2))
    by (by vm_compute).
  split; [exact H|].
  destruct (process_document_success a_txt session_with_subdir _ H)
    as (Hv & Hdir).
  destruct (Hdir eq_refl) as (m' & Hd & _ & Hfile & _).
  split; [exact Hv|]. exists m'. split; [exact Hd|].
  apply Hfile. reflexivity.
Defined.

(** The claim C5 as stated fails: after uploading A and then B into a
    directory with a subdirectory, the subdirectory is there beside B. *)
Lemma second_upload_leaves_subdirectory :
  save_uploaded_file a_txt session_with_subdir
  = (Ok "data", (save_uploaded_file a_txt session_with_subdir).2)
  ∧ save_uploaded_file b_md (save_uploaded_file a_txt session_with_subdir).2
    = (Ok "data",
       (save_uploaded_file b_md
          (save_uploaded_file a_txt session_with_subdir).2).2)
  ∧ entries_of
      (data (save_uploaded_file b_md
               (save_uploaded_file a_txt session_with_subdir).2).2) !! "old"
    = Some (Dir ["x.txt"])
  ∧ data (save_uploaded_file b_md
            (save_uploaded_file a_txt session_with_subdir).2).2
    ≠ Directory {[ "b.md" := File [Byte.x62; Byte.x62] ]}.
Proof.
  split_and!; [by vm_compute | by vm_compute | by vm_compute |].
  intros H. apply (f_equal (λ d, entries_of d !! "old")) in H.
  vm_compute in H. discriminate.
Qed.

Lemma second_upload_replaces_first_witness :
  save_uploaded_file a_txt new_session
  = (Ok "data", (save_uploaded_file a_txt new_session).2)
  ∧ save_uploaded_file b_md (save_uploaded_file a_txt new_session).2
    = (Ok "data",
       (save_uploaded_file b_md (save_uploaded_file a_txt new_session).2).2)
  ∧ ∃ m2,
      data (save_uploaded_file b_md
              (save_uploaded_file a_txt new_session).2).2 = Directory m2
      ∧ m2 = {[ "b.md" := File [Byte.x62; Byte.x62] ]}.
Proof.
  assert (H1 : save_uploaded_file a_txt new_session
               = (Ok "data", (save_uploaded_file a_txt new_session).2))
    by (by vm_compute).
  assert (H2 : save_uploaded_file b_md
                 (save_uploaded_file a_txt new_session).2
               = (Ok "data",
                  (save_uploaded_file b_md
                     (save_uploaded_file a_txt new_session).2).2))
    by (by vm_compute).
  split; [exact H1|]. split; [exact H2|].
  destruct (second_upload_replaces_first a_txt b_md _ _ _ _ _
              eq_refl eq_refl H1 H2)
    as (m2 & Hd & _ & _ & _ & _ & Hone).
  exists m2. split; [exact Hd|]. apply Hone.
  - intros n e Hn. vm_compute in Hn. discriminate.
  - reflexivity.
Defined.

(** The claim C10 as stated fails: an upload named [old/y.txt] is written
    into the subdirectory [old], which is not left untouched. *)
Lemma save_uploaded_file_writes_into_subdirectory :
  data session_with_subdir = Directory {[ "old" := Dir ["x.txt"] ]}
  ∧ save_uploaded_file nested_txt session_with_subdir
    = (Ok "data", (save_uploaded_file nested_txt session_with_subdir).2)
  ∧ data (save_uploaded_file nested_txt session_with_subdir).2
    = Directory {[ "old" := Dir ["x.txt"; "y.txt"] ]}.
Proof. split_and!; by vm_compute. Qed.

Lemma save_uploaded_file_keeps_subdirectories_witness :
  data session_with_subdir = Directory {[ "old" := Dir ["x.txt"] ]}
  ∧ ∃ m', data (save_uploaded_file a_txt session_with_subdir).2
          = Directory m'
    ∧ m' !! "old" = Some (Dir ["x.txt"]).
Proof.
  split; [reflexivity|].
  destruct (save_uploaded_file_keeps_subdirectories a_txt session_with_subdir
              {[ "old" := Dir ["x.txt"] ]} eq_refl)
    as (m' & Hd & _ & Hplain).
  exists m'. split; [exact Hd|].
  apply (proj1 (Hplain eq_refl)). reflexivity.
Defined.





Lemma query_ui_gated_witness :
  fresh new_session
  ∧ rerun new_session (click_process "gsk_1" a_txt)
    ∈ session new_session [click_process "gsk_1" a_txt]
  ∧ (query_ui_shown (rerun new_session (click_process "gsk_1" a_txt)) →
     credential_present (rerun new_session (click_process "gsk_1" a_txt))
     ∧ vector_store_ready (rerun new_session (click_process "gsk_1" a_txt))
       = Some true).
Proof.
  assert (Hfresh : fresh new_session) by (by split).
  assert (Hin : rerun new_session (click_process "gsk_1" a_txt)
                ∈ session new_session [click_process "gsk_1" a_txt])
    by (simpl; left).
  split; [exact Hfresh|]. split; [exact Hin|].
  exact (proj1 (query_ui_gated _ _ _ Hfresh Hin)).
Defined.

(** In that run the query widgets are indeed on the page. *)
Lemma query_ui_shown_after_process :
  query_ui_shown (rerun new_session (click_process "gsk_1" a_txt)).
Proof. left. apply (bool_decide_unpack _). by vm_compute. Qed.

(** ** The further properties at concrete inputs *)

Lemma save_api_key_frame_witness :
  save_api_key "gsk_1" new_session
  = (Ok true, (save_api_key "gsk_1" new_session).2)
  ∧ data (save_api_key "gsk_1" new_session).2 = data new_session
  ∧ ui (save_api_key "gsk_1" new_session).2 = ui new_session.
Proof.
  assert (H : save_api_key "gsk_1" new_session
              = (Ok true, (save_api_key "gsk_1" new_session).2))
    by (by vm_compute).
  split; [exact H|].
  destruct (save_api_key_frame _ _ _ _ H) as (_ & _ & Hd & _ & _ & Hu).
  by split.
Defined.

Lemma save_api_key_last_wins_witness :
  save_api_key "gsk_1" new_session
  = (Ok true, (save_api_key "gsk_1" new_session).2)
  ∧ ∃ w2, save_api_key "gsk_2" (save_api_key "gsk_1" new_session).2
          = (Ok true, w2)
    ∧ environ w2 !! "GROQ_API_KEY" = Some "gsk_2".
Proof.
  assert (H : save_api_key "gsk_1" new_session
              = (Ok true, (save_api_key "gsk_1" new_session).2))
    by (by vm_compute).
  split; [exact H|].
  destruct (save_api_key_last_wins "gsk_1" "gsk_2" _ _ _ H eq_refl)
    as (w2 & Hrun & _ & _ & _ & Henv).
  exists w2. by split.
Defined.

Lemma save_uploaded_file_clears_before_failing_witness :
  data session_with_clash
  = Directory {[ "a.txt" := Dir []; "old.txt" := File [] ]}
  ∧ ({[ "a.txt" := Dir []; "old.txt" := File [] ]} : gmap string Entry)
      !! "a.txt" = Some (Dir [])
  ∧ ∃ e w', save_uploaded_file a_txt session_with_clash = (Raise e, w')
    ∧ entries_of (data w') !! "old.txt" = None.
Proof.
  assert (Hc : ({[ "a.txt" := Dir []; "old.txt" := File [] ]}
                  : gmap string Entry) !! "a.txt" = Some (Dir []))
    by (by vm_compute).
  split; [reflexivity|]. split; [exact Hc|].
  destruct (save_uploaded_file_clears_before_failing a_txt session_with_clash
              _ _ eq_refl Hc) as (e & w' & Hrun & Hd & _ & Hgone).
  exists e, w'. split; [exact Hrun|]. rewrite Hd. simpl.
  apply (Hgone "old.txt" (File [])); by vm_compute.
Defined.

Lemma save_uploaded_file_returns_only_if_witness :
  save_uploaded_file a_txt session_with_subdir
  = (Ok "data", (save_uploaded_file a_txt session_with_subdir).2)
  ∧ (∀ c, entries_of (data session_with_subdir) !! "a.txt" ≠ Some (Dir c))
  ∧ ∃ m', data (save_uploaded_file a_txt session_with_subdir).2
          = Directory m'.
Proof.
  assert (H : save_uploaded_file a_txt session_with_subdir
              = (Ok "data", (save_uploaded_file a_txt session_with_subdir).2))
    by (by vm_compute).
  split; [exact H|].
  destruct (save_uploaded_file_returns_only_if _ _ _ _ H)
    as (_ & _ & Hname & Hdir).
  by split.
Defined.

Lemma save_uploaded_file_twice_witness :
  save_uploaded_file a_txt session_with_subdir
  = (Ok "data", (save_uploaded_file a_txt session_with_subdir).2)
  ∧ ∃ w2, save_uploaded_file a_txt
            (save_uploaded_file a_txt session_with_subdir).2
          = (Ok "data", w2)
    ∧ data w2 = data (save_uploaded_file a_txt session_with_subdir).2.
Proof.
  assert (H : save_uploaded_file a_txt session_with_subdir
              = (Ok "data", (save_uploaded_file a_txt session_with_subdir).2))
    by (by vm_compute).
  split; [exact H|].
  exact (save_uploaded_file_twice _ _ _ _ H eq_refl).
Defined.

Lemma save_uploaded_file_reports_failures_witness :
  data session_with_locked
  = Directory {[ "locked.txt" := File [Byte.x61]; "free.txt" := File [] ]}
  ∧ Error "Failed to delete data/locked.txt. Reason: [Errno 13] Permission denied"
    ∈ ui (save_uploaded_file a_txt session_with_locked).2
  ∧ entries_of (data (save_uploaded_file a_txt session_with_locked).2)
      !! "locked.txt" = Some (File [Byte.x61]).
Proof.
  split; [reflexivity|].
  destruct (save_uploaded_file_reports_failures a_txt session_with_locked
              _ eq_refl) as [Hui Hkeep].
  split.
  - apply Hui. right.
    exists "locked.txt", (File [Byte.x61]), "[Errno 13] Permission denied".
    split_and!; by vm_compute.
  - apply (Hkeep eq_refl _ _ "[Errno 13] Permission denied"); by vm_compute.
Defined.

Lemma process_document_pipeline_witness :
  process_document a_txt new_session
  = (Ok tt, (process_document a_txt new_session).2)
  ∧ ∃ docs ix,
      @load_all_documents ok_ext
        (data (process_document a_txt new_session).2) = Ok docs
      ∧ faiss_store (process_document a_txt new_session).2 = Some ix.
Proof.
  assert (H : process_document a_txt new_session
              = (Ok tt, (process_document a_txt new_session).2))
    by (by vm_compute).
  split; [exact H|].
  destruct (process_document_pipeline _ _ _ H)
    as (docs & ix & Hload & _ & _ & _ & Hix & _).
  exists docs, ix. split; [exact Hload | exact Hix].
Defined.

Lemma answer_handler_outcome_witness :
  "what is it?" ≠ ""
  ∧ ui (answer_handler "what is it?" ready_session).2
    = [Spinner "Searching and generating summary...";
       Subheader "Summary Result:"; Markdown "summary of what is it?"].
Proof.
  assert (Hq : "what is it?" ≠ "") by discriminate.
  split; [exact Hq|].
  exact (proj1 (answer_handler_outcome "what is it?" ready_session Hq)).
Defined.


Lemma credential_and_flag_persist_witness :
  credential_present ready_session
  ∧ vector_store_ready ready_session = Some true
  ∧ rerun ready_session (click_answer "q")
    ∈ session ready_session [click_answer "q"]
  ∧ credential_present (rerun ready_session (click_answer "q"))
  ∧ vector_store_ready (rerun ready_session (click_answer "q")) = Some true.
Proof.
  assert (Hc : credential_present ready_session).
  { exists "gsk_1". split; [by vm_compute | discriminate]. }
  assert (Hin : rerun ready_session (click_answer "q")
                ∈ session ready_session [click_answer "q"])
    by (simpl; left).
  split; [exact Hc|]. split; [reflexivity|]. split; [exact Hin|].
  exact (credential_and_flag_persist _ _ _ Hc eq_refl Hin).
Defined.

Lemma query_ui_stays_witness :
  credential_present ready_session
  ∧ vector_store_ready ready_session = Some true
  ∧ (script no_click (set_ui [] ready_session)).1 = Ok tt
  ∧ query_ui_shown (rerun ready_session no_click).
Proof.
  assert (Hc : credential_present ready_session).
  { exists "gsk_1". split; [by vm_compute | discriminate]. }
  assert (Hok : (script no_click (set_ui [] ready_session)).1 = Ok tt)
    by (by vm_compute).
  split; [exact Hc|]. split; [reflexivity|]. split; [exact Hok|].
  exact (query_ui_stays _ _ Hc eq_refl Hok).
Defined.

Lemma no_process_keeps_files_witness :
  (uploaded_file (click_save "gsk_1") = None
   ∨ process_clicked (click_save "gsk_1") = false)
  ∧ data (rerun ready_session (click_save "gsk_1")) = data ready_session
  ∧ faiss_store (rerun ready_session (click_save "gsk_1"))
    = faiss_store ready_session.
Proof.
  assert (H : uploaded_file (click_save "gsk_1") = None
              ∨ process_clicked (click_save "gsk_1") = false)
    by (by left).
  split; [exact H|].
  destruct (no_process_keeps_files ready_session _ H) as (Hd & Hf & _).
  by split.
Defined.

Lemma no_save_keeps_dotenv_witness :
  (save_clicked (click_answer "q") = false
   ∨ api_key_input (click_answer "q") = "")
  ∧ dotenv (rerun ready_session (click_answer "q")) = dotenv ready_session
  ∧ environ (rerun ready_session (click_answer "q")) !! "GROQ_API_KEY"
    = Some "gsk_1".
Proof.
  assert (H : save_clicked (click_answer "q") = false
              ∨ api_key_input (click_answer "q") = "")
    by (by left).
  split; [exact H|].
  destruct (no_save_keeps_dotenv ready_session _ H) as (Hd & Henv).
  split; [exact Hd|]. apply Henv. reflexivity.
Defined.

Lemma saved_key_in_effect_witness :
  save_clicked (click_process "gsk_1" a_txt) = true
  ∧ api_key_input (click_process "gsk_1" a_txt) ≠ ""
  ∧ dotenv new_session ≠ EnvDirectory
  ∧ environ (rerun new_session (click_process "gsk_1" a_txt))
      !! "GROQ_API_KEY" = Some "gsk_1".
Proof.
  assert (Hk : api_key_input (click_process "gsk_1" a_txt) ≠ "")
    by discriminate.
  assert (Hd : dotenv new_session ≠ EnvDirectory) by discriminate.
  split; [reflexivity|]. split; [exact Hk|]. split; [exact Hd|].
  exact (proj1 (saved_key_in_effect new_session
                  (click_process "gsk_1" a_txt) eq_refl Hk eq_refl Hd
                  eq_refl)).
Defined.
